(** * The CloudFlare DNS record resource of the Terraform provider

    A shallow embedding of [cloudflare/resource_cloudflare_record.go]:
    the name helpers [recordName] and [subdomainName], the four lifecycle
    handlers and the importer, over an explicit model of the host's
    [schema.ResourceData] and of the remote [cloudflare.API] client. *)

From Stdlib Require Import ZArith Bool Ascii String List Lia.
From stdpp Require Import base option gmap strings.

Import ListNotations.
Local Open Scope string_scope.

(** ** The [strings] package, on byte strings *)

Module strings.

(** [s[n:]] for [n <= len(s)]. *)
Definition sliceFrom (n : nat) (s : string) : string :=
  String.substring n (String.length s - n) s.

(** [s[:n]] for [n <= len(s)]. *)
Definition sliceTo (n : nat) (s : string) : string :=
  String.substring 0 n s.

(** [HasSuffix]: [len(s) >= len(suffix) && s[len(s)-len(suffix):] == suffix]. *)
Definition HasSuffix (s suffix : string) : bool :=
  (String.length suffix <=? String.length s)%nat
  && String.eqb (sliceFrom (String.length s - String.length suffix) s) suffix.

(** [TrimSuffix]: [s] without the trailing [suffix], [s] itself when it
    does not end with [suffix]. *)
Definition TrimSuffix (s suffix : string) : string :=
  if HasSuffix s suffix
  then sliceTo (String.length s - String.length suffix) s
  else s.

(** [Contains]: [substr] occurs at some offset of [s]. *)
Fixpoint Contains (s substr : string) : bool :=
  String.prefix substr s
  || match s with
     | EmptyString => false
     | String _ s' => Contains s' substr
     end.

(** [Split] for a non-empty separator: a left-to-right scan that cuts at
    every occurrence of [sep]; [skip] counts the bytes of a separator
    still to be passed over, [cur] is the token being read. *)
Fixpoint splitScan (sep : string) (skip : nat) (cur s : string) : list string :=
  match s with
  | EmptyString => [cur]
  | String c s' =>
      match skip with
      | S k => splitScan sep k cur s'
      | O =>
          if String.prefix sep s
          then cur :: splitScan sep (String.length sep - 1) EmptyString s'
          else splitScan sep 0 (cur ++ String c EmptyString) s'
      end
  end.

Definition Split (s sep : string) : list string := splitScan sep 0 EmptyString s.

End strings.

(** ** Name composition and decomposition *)

(** [fmt.Sprintf("%s.%s", a, b)]. *)
Definition Sprintf_s_dot_s (a b : string) : string := a ++ "." ++ b.

Definition subdomainName (fullName domain : string) : string :=
  strings.TrimSuffix (strings.TrimSuffix fullName domain) ".".

Definition recordName (subdomain domain : string) : string :=
  if String.eqb subdomain "" then domain else Sprintf_s_dot_s subdomain domain.

(** ** Go values the handlers exchange with their environment *)

(** An argument of [fmt.Errorf]; an error argument is kept by its
    [Error()] text. *)
Inductive Arg : Type :=
| AString (s : string)
| AInt (n : Z)
| AError (msg : string).

(** A Go [error] value returned by a handler: either an error received from
    a callee and passed on unchanged, known by its [Error()] text, or one
    built here by [fmt.Errorf], kept as its format and arguments. *)
Inductive error : Type :=
| errorString (msg : string)
| Errorf (format : string) (args : list Arg).

(** ** [helper/schema]: the host's view of one resource instance *)

Module schema.

Inductive ValueType : Type := TypeString | TypeInt | TypeBool.

(** The dynamically typed values behind [interface{}]. *)
Inductive Value : Type :=
| VString (s : string)
| VInt (n : Z)
| VBool (b : bool).

#[global] Instance Value_eq_dec : EqDecision Value.
Proof. solve_decision. Defined.

#[global] Instance ValueType_eq_dec : EqDecision ValueType.
Proof. solve_decision. Defined.

Definition typeOf (v : Value) : ValueType :=
  match v with
  | VString _ => TypeString
  | VInt _ => TypeInt
  | VBool _ => TypeBool
  end.

(** [ValueType.Zero()]. *)
Definition Zero (t : ValueType) : Value :=
  match t with
  | TypeString => VString ""
  | TypeInt => VInt 0
  | TypeBool => VBool false
  end.

(** The type assertions [v.(string)], [v.(int)] and [v.(bool)]. The last
    branch of each is a panic in Go; [Get] only yields values of the
    schema's type as long as the attributes are written through [Set]. *)
Definition asString (v : Value) : string :=
  match v with VString s => s | _ => "" end.
Definition asInt (v : Value) : Z :=
  match v with VInt n => n | _ => 0%Z end.
Definition asBool (v : Value) : bool :=
  match v with VBool b => b | _ => false end.

Record Schema : Type := mkSchema {
  Type_ : ValueType;
  Required : bool;
  Optional : bool;
  ForceNew : bool;
  Computed : bool;
  Default : option Value;
  Deprecated : string
}.

(** [ResourceData]: the resource identifier and the attributes that have
    been given a value, by the configuration or by [Set]. *)
Record ResourceData : Type := mkResourceData {
  id : string;
  attrs : gmap string Value
}.

Section WithSchema.
Variable sch : gmap string Schema.

(** [d.Get(key)]: the attribute's value, the schema's default or the
    zero value of the schema's type when it has none. *)
Definition Get (d : ResourceData) (key : string) : Value :=
  match attrs d !! key with
  | Some v => v
  | None =>
      match sch !! key with
      | Some s => default (Zero (Type_ s)) (Default s)
      | None => VString ""
      end
  end.

(** [d.GetOk(key)]: the value with a flag that holds when the key has
    been set to a value other than the zero value of its type. *)
Definition GetOk (d : ResourceData) (key : string) : Value * bool :=
  (Get d key,
   match attrs d !! key, sch !! key with
   | Some v, Some s => negb (bool_decide (v = Zero (Type_ s)))
   | _, _ => false
   end).

(** [d.Set(key, value)]: stores the value under a key of the schema
    whose type it has; any other call returns an error and stores
    nothing. The error is represented by the offending key. *)
Definition Set_ (d : ResourceData) (key : string) (v : Value)
  : option string * ResourceData :=
  match sch !! key with
  | Some s =>
      if bool_decide (typeOf v = Type_ s)
      then (None, mkResourceData (id d) (<[key := v]> (attrs d)))
      else (Some key, d)
  | None => (Some key, d)
  end.

Definition Id (d : ResourceData) : string := id d.

Definition SetId (d : ResourceData) (v : string) : ResourceData :=
  mkResourceData v (attrs d).
End WithSchema.

End schema.

(** ** [cloudflare-go]: the remote API client *)

Module cloudflare.

(** The fields of [cloudflare.DNSRecord] this resource reads or writes. *)
Record DNSRecord : Type := mkDNSRecord {
  ID : string;
  Type_ : string;
  Name : string;
  Content : string;
  Proxied : bool;
  TTL : Z;
  ZoneID : string;
  ZoneName : string;
  Priority : Z
}.

(** The zero value [DNSRecord{}]. *)
Definition zeroDNSRecord : DNSRecord :=
  mkDNSRecord "" "" "" "" false 0 "" "" 0.

Definition withPriority (p : Z) (r : DNSRecord) : DNSRecord :=
  mkDNSRecord (ID r) (Type_ r) (Name r) (Content r) (Proxied r) (TTL r)
    (ZoneID r) (ZoneName r) p.
Definition withTTL (t : Z) (r : DNSRecord) : DNSRecord :=
  mkDNSRecord (ID r) (Type_ r) (Name r) (Content r) (Proxied r) t
    (ZoneID r) (ZoneName r) (Priority r).
Definition withProxied (b : bool) (r : DNSRecord) : DNSRecord :=
  mkDNSRecord (ID r) (Type_ r) (Name r) (Content r) b (TTL r)
    (ZoneID r) (ZoneName r) (Priority r).
Definition withZoneID (z : string) (r : DNSRecord) : DNSRecord :=
  mkDNSRecord (ID r) (Type_ r) (Name r) (Content r) (Proxied r) (TTL r)
    z (ZoneName r) (Priority r).

Record DNSRecordResponse : Type := mkDNSRecordResponse {
  Result : DNSRecord
}.

(** What a call returns: a result, or an error known by its [Error()]
    text. *)
Inductive reply (A : Type) : Type :=
| Done (a : A)
| Fail (msg : string).
Arguments Done {A} a.
Arguments Fail {A} msg.

(** The client against a remote service in state [W]; each call may
    change that state. *)
Record API (W : Type) : Type := mkAPI {
  ZoneIDByName : string -> W -> reply string * W;
  CreateDNSRecord : string -> DNSRecord -> W -> reply DNSRecordResponse * W;
  DNSRecordByID : string -> string -> W -> reply DNSRecord * W;
  DNSRecords : string -> DNSRecord -> W -> reply (list DNSRecord) * W;
  UpdateDNSRecord : string -> string -> DNSRecord -> W -> option string * W;
  DeleteDNSRecord : string -> string -> W -> option string * W
}.
Arguments ZoneIDByName {W} _ _ _.
Arguments CreateDNSRecord {W} _ _ _ _.
Arguments DNSRecordByID {W} _ _ _ _.
Arguments DNSRecords {W} _ _ _ _.
Arguments UpdateDNSRecord {W} _ _ _ _ _.
Arguments DeleteDNSRecord {W} _ _ _ _.

End cloudflare.

(** ** The resource: schema, run-time state and the handlers *)

Import schema cloudflare.

Definition recordNotFoundMessage : string := "Invalid dns record identifier".

(** The [Schema] map of [resourceCloudFlareRecord]. *)
Definition resourceCloudFlareRecord_Schema : gmap string Schema :=
  list_to_map
    [ ("domain",    mkSchema TypeString true  false true  false None "");
      ("subdomain", mkSchema TypeString false true  false false (Some (VString "")) "");
      ("name",      mkSchema TypeString false true  false false None
                      "Please use 'subdomain' instead");
      ("type",      mkSchema TypeString true  false true  false None "");
      ("value",     mkSchema TypeString true  false false false None "");
      ("ttl",       mkSchema TypeInt    false true  false true  None "");
      ("priority",  mkSchema TypeInt    false true  false false None "");
      ("proxied",   mkSchema TypeBool   false true  false false (Some (VBool false)) "");
      ("zone_id",   mkSchema TypeString false false false true  None "") ].

(** What a handler does that its environment can see, in the order it does
    it: the validation hooks it runs, the calls it makes on the client and
    its writes to the resource data. *)
Inductive Event : Type :=
| EValidateRecordName (t value : string)
| EValidateRecordType (t : string) (proxied : bool)
| EZoneIDByName (zoneName : string)
| ECreateDNSRecord (zoneID : string) (rr : DNSRecord)
| EDNSRecord (zoneID recordID : string)
| EDNSRecords (zoneID : string) (filter : DNSRecord)
| EUpdateDNSRecord (zoneID recordID : string) (rr : DNSRecord)
| EDeleteDNSRecord (zoneID recordID : string)
| ESetId (v : string)
| ESet (key : string) (v : Value).

Definition isValidation (e : Event) : bool :=
  match e with
  | EValidateRecordName _ _ | EValidateRecordType _ _ => true
  | _ => false
  end.

Definition isZoneResolution (e : Event) : bool :=
  match e with EZoneIDByName _ => true | _ => false end.

Definition isRemoteCall (e : Event) : bool :=
  match e with
  | EZoneIDByName _ | ECreateDNSRecord _ _ | EDNSRecord _ _ | EDNSRecords _ _
  | EUpdateDNSRecord _ _ _ | EDeleteDNSRecord _ _ => true
  | _ => false
  end.

(** [occursBefore P Q tr]: some [P] event of [tr] comes before some [Q]
    event of [tr]. *)
Fixpoint occursBefore (P Q : Event -> bool) (tr : list Event) : bool :=
  match tr with
  | [] => false
  | e :: tr' => (P e && existsb Q tr') || occursBefore P Q tr'
  end.

(** The state a handler runs in: the resource data [d] points to, the
    remote service behind [meta], and the events so far. *)
Record State (W : Type) : Type := mkState {
  data : ResourceData;
  world : W;
  trace : list Event
}.
Arguments mkState {W} _ _ _.
Arguments data {W} _.
Arguments world {W} _.
Arguments trace {W} _.

(** How a handler ends: [Ret] is a nil error (with the other results, if
    any), [Raise] a non-nil one. The state is kept either way. *)
Inductive Outcome (A : Type) : Type :=
| Ret (a : A)
| Raise (e : error).
Arguments Ret {A} a.
Arguments Raise {A} e.

Definition M (W A : Type) : Type := State W -> Outcome A * State W.

Definition ret {W A} (a : A) : M W A := fun st => (Ret a, st).

Definition raise {W A} (e : error) : M W A := fun st => (Raise e, st).

Definition bind {W A B} (c : M W A) (k : A -> M W B) : M W B :=
  fun st =>
    match c st with
    | (Ret a, st') => k a st'
    | (Raise e, st') => (Raise e, st')
    end.

(** Runs [c] and hands its outcome to the caller, as [if err := f(); err != nil]. *)
Definition attempt {W A} (c : M W A) : M W (Outcome A) :=
  fun st => let (o, st') := c st in (Ret o, st').

Declare Scope go_scope.
Delimit Scope go_scope with go.
Notation "'let*' x ':=' c 'in' k" := (bind c (fun x => k))
  (at level 10, x pattern, c at level 99, k at level 200) : go_scope.
Notation "c ';;;' k" := (bind c (fun _ => k))
  (at level 100, k at level 200, right associativity) : go_scope.
Local Open Scope go_scope.

Section Handlers.
Context {W : Type}.
Variable client : API W.

(** The validation hooks, defined elsewhere in the package: [None] is a
    nil error, [Some msg] an error with that text. *)
Variable validateRecordName : string -> string -> option string.
Variable validateRecordType : string -> bool -> option string.

Definition emit (e : Event) (st : State W) : State W :=
  mkState (data st) (world st) (trace st ++ [e]).

(** *** Methods of [d] *)

Definition d_Get (key : string) : M W Value :=
  fun st => (Ret (Get resourceCloudFlareRecord_Schema (data st) key), st).

Definition d_GetOk (key : string) : M W (Value * bool) :=
  fun st => (Ret (GetOk resourceCloudFlareRecord_Schema (data st) key), st).

Definition d_Id : M W string :=
  fun st => (Ret (Id (data st)), st).

Definition d_SetId (v : string) : M W unit :=
  fun st => (Ret tt, mkState (SetId (data st) v) (world st) (trace st ++ [ESetId v])).

Definition d_Set (key : string) (v : Value) : M W (option string) :=
  fun st =>
    let (err, d') := Set_ resourceCloudFlareRecord_Schema (data st) key v in
    (Ret err, mkState d' (world st) (trace st ++ [ESet key v])).

(** *** Calls *)

Definition remote {A} (e : Event) (call : W -> A * W) : M W A :=
  fun st =>
    let (r, w') := call (world st) in
    (Ret r, mkState (data st) w' (trace st ++ [e])).

Definition client_ZoneIDByName (zoneName : string) : M W (reply string) :=
  remote (EZoneIDByName zoneName) (ZoneIDByName client zoneName).

Definition client_CreateDNSRecord (zoneID : string) (rr : DNSRecord)
  : M W (reply DNSRecordResponse) :=
  remote (ECreateDNSRecord zoneID rr) (CreateDNSRecord client zoneID rr).

Definition client_DNSRecord (zoneID recordID : string) : M W (reply DNSRecord) :=
  remote (EDNSRecord zoneID recordID) (DNSRecordByID client zoneID recordID).

Definition client_DNSRecords (zoneID : string) (filter : DNSRecord)
  : M W (reply (list DNSRecord)) :=
  remote (EDNSRecords zoneID filter) (DNSRecords client zoneID filter).

Definition client_UpdateDNSRecord (zoneID recordID : string) (rr : DNSRecord)
  : M W (option string) :=
  remote (EUpdateDNSRecord zoneID recordID rr)
    (UpdateDNSRecord client zoneID recordID rr).

Definition client_DeleteDNSRecord (zoneID recordID : string) : M W (option string) :=
  remote (EDeleteDNSRecord zoneID recordID) (DeleteDNSRecord client zoneID recordID).

Definition call_validateRecordName (t value : string) : M W (option string) :=
  fun st => (Ret (validateRecordName t value), emit (EValidateRecordName t value) st).

Definition call_validateRecordType (t : string) (proxied : bool) : M W (option string) :=
  fun st => (Ret (validateRecordType t proxied), emit (EValidateRecordType t proxied) st).

(** In the handlers below the calls of [log.Printf] are left out: they
  write to the log and touch neither [d] nor the client. *)

(** *** [resourceCloudFlareRecordRead] *)

Definition resourceCloudFlareRecordRead : M W unit :=
  let* domain := d_Get "domain" in
  let domain := asString domain in
  let* r := client_ZoneIDByName domain in
  match r with
  | Fail err =>
      raise (Errorf "Error finding zone %q: %s" [AString domain; AError err])
  | Done zoneID =>
      let* id := d_Id in
      let* r := client_DNSRecord zoneID id in
      match r with
      | Fail err =>
          if strings.Contains err recordNotFoundMessage
          then d_SetId "" ;;; ret tt
          else raise (errorString err)
      | Done record =>
          d_SetId (ID record) ;;;
          d_Set "type" (VString (cloudflare.Type_ record)) ;;;
          d_Set "subdomain" (VString (subdomainName (Name record) domain)) ;;;
          d_Set "value" (VString (Content record)) ;;;
          d_Set "ttl" (VInt (TTL record)) ;;;
          d_Set "priority" (VInt (Priority record)) ;;;
          d_Set "proxied" (VBool (Proxied record)) ;;;
          d_Set "zone_id" (VString zoneID) ;;;
          ret tt
      end
  end.

(** *** [resourceCloudFlareRecordCreate] *)

(** The record [newRecord] as built from [d] before validation. *)
Definition newRecord (d : ResourceData) : DNSRecord :=
  let get := Get resourceCloudFlareRecord_Schema d in
  let getOk := GetOk resourceCloudFlareRecord_Schema d in
  let subdomain := asString (get "subdomain") in
  let domain := asString (get "domain") in
  let newRecord :=
    mkDNSRecord "" (asString (get "type")) (recordName subdomain domain)
      (asString (get "value")) (asBool (get "proxied")) 0 "" domain 0 in
  let newRecord :=
    let (priority, ok) := getOk "priority" in
    if ok then withPriority (asInt priority) newRecord else newRecord in
  let newRecord :=
    let (ttl, ok) := getOk "ttl" in
    if ok then withTTL (asInt ttl) newRecord else newRecord in
  newRecord.

Definition resourceCloudFlareRecordCreate : M W unit :=
  fun st0 =>
  let newRecord := newRecord (data st0) in
  (let* e := call_validateRecordName (cloudflare.Type_ newRecord) (Content newRecord) in
   match e with
   | Some err =>
       raise (Errorf "Error validating record name %q: %s"
                [AString (Name newRecord); AError err])
   | None =>
   let* e := call_validateRecordType (cloudflare.Type_ newRecord) (Proxied newRecord) in
   match e with
   | Some err =>
       raise (Errorf "Error validating record type %q: %s"
                [AString (cloudflare.Type_ newRecord); AError err])
   | None =>
   let* r := client_ZoneIDByName (ZoneName newRecord) in
   match r with
   | Fail err =>
       raise (Errorf "Error finding zone %q: %s"
                [AString (ZoneName newRecord); AError err])
   | Done zoneID =>
       d_Set "zone_id" (VString zoneID) ;;;
       let newRecord := withZoneID zoneID newRecord in
       let* r := client_CreateDNSRecord zoneID newRecord in
       match r with
       | Fail err => raise (Errorf "Failed to create record: %s" [AError err])
       | Done r =>
           if String.eqb (ID (Result r)) ""
           then raise (Errorf "Failed to find record in Creat response; Record was empty" [])
           else d_SetId (ID (Result r)) ;;; resourceCloudFlareRecordRead
       end
   end
   end
   end) st0.

(** *** [resourceCloudFlareRecordUpdate] *)

(** The record [updateRecord] as built from [d] before the zone lookup. *)
Definition updateRecord (d : ResourceData) : DNSRecord :=
  let get := Get resourceCloudFlareRecord_Schema d in
  let getOk := GetOk resourceCloudFlareRecord_Schema d in
  let subdomain := asString (get "subdomain") in
  let domain := asString (get "domain") in
  let updateRecord :=
    mkDNSRecord (Id d) (asString (get "type")) (recordName subdomain domain)
      (asString (get "value")) false 0 "" domain 0 in
  let updateRecord :=
    let (priority, ok) := getOk "priority" in
    if ok then withPriority (asInt priority) updateRecord else updateRecord in
  let updateRecord :=
    let (proxied, ok) := getOk "proxied" in
    if ok then withProxied (asBool proxied) updateRecord else updateRecord in
  let updateRecord :=
    let (ttl, ok) := getOk "ttl" in
    if ok then withTTL (asInt ttl) updateRecord else updateRecord in
  updateRecord.

Definition resourceCloudFlareRecordUpdate : M W unit :=
  fun st0 =>
  let updateRecord := updateRecord (data st0) in
  (let* r := client_ZoneIDByName (ZoneName updateRecord) in
   match r with
   | Fail err =>
       raise (Errorf "Error finding zone %q: %s"
                [AString (ZoneName updateRecord); AError err])
   | Done zoneID =>
       let updateRecord := withZoneID zoneID updateRecord in
       let* id := d_Id in
       let* e := client_UpdateDNSRecord zoneID id updateRecord in
       match e with
       | Some err =>
           raise (Errorf "Failed to update CloudFlare Record: %s" [AError err])
       | None => resourceCloudFlareRecordRead
       end
   end) st0.

(** *** [resourceCloudFlareRecordDelete] *)

Definition resourceCloudFlareRecordDelete : M W unit :=
  let* domain := d_Get "domain" in
  let domain := asString domain in
  let* r := client_ZoneIDByName domain in
  match r with
  | Fail err =>
      raise (Errorf "Error finding zone %q: %s" [AString domain; AError err])
  | Done zoneID =>
      let* id := d_Id in
      let* e := client_DeleteDNSRecord zoneID id in
      match e with
      | None => ret tt
      | Some err =>
          if strings.Contains err recordNotFoundMessage
          then ret tt
          else raise (Errorf "Error deleting CloudFlare Record: %s" [AError err])
      end
  end.

(** *** [importRecord] *)

(** The [filter] of [importRecord]: a record with [Name] and [Type] only. *)
Definition importFilter (subdomain domain recordType : string) : DNSRecord :=
mkDNSRecord "" recordType (Sprintf_s_dot_s subdomain domain) "" false 0 "" "" 0.

Definition importRecord : M W (list ResourceData) :=
  let* id := d_Id in
  let tokens := strings.Split id "|" in
  if negb (length tokens =? 3)%nat
  then raise (Errorf "expecting subdomain|domain|type, got %q" [AString id])
  else
    let subdomain := nth 0 tokens "" in
    let domain := nth 1 tokens "" in
    let recordType := nth 2 tokens "" in
    let* r := client_ZoneIDByName domain in
    match r with
    | Fail err =>
        raise (Errorf "error finding zone %q: %s" [AString domain; AError err])
    | Done zoneID =>
        let filter := importFilter subdomain domain recordType in
        let* r := client_DNSRecords zoneID filter in
        match r with
        | Fail err => raise (Errorf "error filtering DNS records: %q" [AError err])
        | Done records =>
            if negb (length records =? 1)%nat
            then raise (Errorf "expected 1 record, got %d"
                          [AInt (Z.of_nat (length records))])
            else
              let first := nth 0 records zeroDNSRecord in
              d_SetId (ID first) ;;;
              let* e := d_Set "domain" (VString domain) in
              match e with
              | Some err => raise (Errorf "error setting domain %v" [AError err])
              | None =>
                  let* o := attempt resourceCloudFlareRecordRead in
                  match o with
                  | Raise _ =>
                      raise (Errorf "error importing record %q" [AString (ID first)])
                  | Ret _ => fun st => (Ret [data st], st)
                  end
              end
        end
    end.

End Handlers.

(** ** A scripted client, to run the handlers on concrete inputs

    Every call answers with the reply the script fixes for that operation;
    the remote state counts the calls made. *)

Definition scriptedAPI
    (zone : reply string) (create : reply DNSRecordResponse)
    (fetch : reply DNSRecord) (found : reply (list DNSRecord))
    (update delete : option string) : API nat :=
  mkAPI nat
    (fun _ n => (zone, S n))
    (fun _ _ n => (create, S n))
    (fun _ _ n => (fetch, S n))
    (fun _ _ n => (found, S n))
    (fun _ _ _ n => (update, S n))
    (fun _ _ n => (delete, S n)).

(** A remote record and the local configuration that describes it. *)
Definition wwwRecord : DNSRecord :=
  mkDNSRecord "rec-1" "A" "www.example.com" "192.0.2.1" false 1 "zone-1" "example.com" 0.

Definition wwwConfig : ResourceData :=
  mkResourceData ""
    (list_to_map [ ("domain", VString "example.com"); ("subdomain", VString "www");
                   ("type", VString "A"); ("value", VString "192.0.2.1") ]).

(** The same for a record at the apex of the zone. *)
Definition apexConfig : ResourceData :=
  mkResourceData ""
    (list_to_map [ ("domain", VString "example.com");
                   ("type", VString "A"); ("value", VString "192.0.2.1") ]).

(** Validation hooks that accept, and hooks that reject, every record. *)
Definition acceptAll {A B} (_ : A) (_ : B) : option string := None.
Definition rejectAll {A B} (_ : A) (_ : B) : option string := Some "rejected".

(** A service on which every call succeeds and that holds [wwwRecord]. *)
Definition okAPI : API nat :=
  scriptedAPI (Done "zone-1") (Done (mkDNSRecordResponse wwwRecord))
    (Done wwwRecord) (Done [wwwRecord]) None None.

(** A service that no longer knows the record. *)
Definition goneAPI : API nat :=
  scriptedAPI (Done "zone-1") (Done (mkDNSRecordResponse zeroDNSRecord))
    (Fail "error from makeRequest: Invalid dns record identifier")
    (Done []) (Some "error from makeRequest: Invalid dns record identifier")
    (Some "error from makeRequest: Invalid dns record identifier").

(** A service on which the record calls fail for another reason. *)
Definition brokenAPI : API nat :=
  scriptedAPI (Done "zone-1") (Fail "HTTP status 500")
    (Fail "HTTP status 500") (Done [wwwRecord; wwwRecord]) (Some "HTTP status 500")
    (Some "HTTP status 500").

(** A service that does not know the zone. *)
Definition noZoneAPI : API nat :=
  scriptedAPI (Fail "Zone could not be found") (Fail "HTTP status 500")
    (Fail "HTTP status 500") (Fail "HTTP status 500") (Some "HTTP status 500")
    (Some "HTTP status 500").

(** A service on which listing the records fails. *)
Definition noListAPI : API nat :=
  scriptedAPI (Done "zone-1") (Fail "HTTP status 500")
    (Fail "HTTP status 500") (Fail "HTTP status 500") (Some "HTTP status 500")
    (Some "HTTP status 500").

(** Where a handler starts: the given resource data, no call made. *)
Definition start (d : ResourceData) : State nat := mkState d 0 [].

(** The resource data of an existing resource. *)
Definition wwwState : ResourceData := mkResourceData "rec-1" (attrs wwwConfig).

(** * Properties *)

(** ** Byte strings *)

Section StringFacts.

Lemma append_cons (c : ascii) (a b : string) :
  String c a ++ b = String c (a ++ b).
Proof. reflexivity. Qed.

Lemma append_assoc (a b c : string) : (a ++ b) ++ c = a ++ (b ++ c).
Proof.
  induction a as [|x a IH]; [reflexivity|].
  rewrite !append_cons. now rewrite IH.
Qed.

Lemma length_append (a b : string) :
  String.length (a ++ b) = String.length a + String.length b.
Proof.
  induction a as [|c a IH]; [reflexivity|].
  rewrite append_cons. simpl. now rewrite IH.
Qed.

Lemma substring_zero_length (a : string) :
  String.substring 0 (String.length a) a = a.
Proof. induction a as [|c a IH]; simpl; [reflexivity | now rewrite IH]. Qed.

Lemma substring_append_left (a b : string) :
  String.substring 0 (String.length a) (a ++ b) = a.
Proof.
  induction a as [|c a IH].
  - destruct b; reflexivity.
  - rewrite append_cons. simpl. now rewrite IH.
Qed.

Lemma substring_append_right (a b : string) :
  String.substring (String.length a) (String.length b) (a ++ b) = b.
Proof.
  induction a as [|c a IH].
  - apply substring_zero_length.
  - rewrite append_cons. exact IH.
Qed.

Lemma HasSuffix_append (a b : string) : strings.HasSuffix (a ++ b) b = true.
Proof.
  unfold strings.HasSuffix, strings.sliceFrom.
  rewrite length_append.
  replace (String.length a + String.length b - String.length b)
    with (String.length a) by lia.
  replace (String.length a + String.length b - String.length a)
    with (String.length b) by lia.
  rewrite substring_append_right, String.eqb_refl.
  rewrite andb_true_r. apply Nat.leb_le. lia.
Qed.

Lemma TrimSuffix_append (a b : string) : strings.TrimSuffix (a ++ b) b = a.
Proof.
  unfold strings.TrimSuffix. rewrite HasSuffix_append.
  unfold strings.sliceTo. rewrite length_append.
  replace (String.length a + String.length b - String.length b)
    with (String.length a) by lia.
  apply substring_append_left.
Qed.

End StringFacts.

(** ** Names *)

Example recordName_www : recordName "www" "example.com" = "www.example.com".
Proof. reflexivity. Qed.

Example recordName_apex : recordName "" "example.com" = "example.com".
Proof. reflexivity. Qed.

Example subdomainName_www : subdomainName "www.example.com" "example.com" = "www".
Proof. reflexivity. Qed.

Example subdomainName_apex : subdomainName "example.com" "example.com" = "".
Proof. reflexivity. Qed.

Lemma subdomainName_Sprintf (s d : string) :
  subdomainName (Sprintf_s_dot_s s d) d = s.
Proof.
  unfold subdomainName, Sprintf_s_dot_s.
  rewrite <- append_assoc, TrimSuffix_append.
  apply TrimSuffix_append.
Qed.

(** C1. For every non-empty subdomain [s] and every domain [d], the composed
    name is [s ++ "." ++ d] (and the one of the empty subdomain is [d]
    alone), and decomposing it against [d] gives [s] back. *)
Theorem subdomainName_recordName (s d : string) (Hs : s <> "") :
  recordName s d = s ++ "." ++ d
  /\ recordName "" d = d
  /\ subdomainName (recordName s d) d = s.
Proof.
  assert (E : recordName s d = Sprintf_s_dot_s s d).
  { unfold recordName. apply String.eqb_neq in Hs. now rewrite Hs. }
  rewrite E. repeat split. apply subdomainName_Sprintf.
Qed.

Lemma subdomainName_recordName_witness :
  "www" <> ""
  /\ recordName "www" "example.com" = "www" ++ "." ++ "example.com"
  /\ recordName "" "example.com" = "example.com"
  /\ subdomainName (recordName "www" "example.com") "example.com" = "www".
Proof.
  split; [discriminate | apply (subdomainName_recordName "www" "example.com"); discriminate].
Defined.

(** ** The resource data *)

Section ResourceDataFacts.

Local Arguments Get : simpl never.
Local Arguments GetOk : simpl never.

Lemma Schema_proxied :
  resourceCloudFlareRecord_Schema !! "proxied"
  = Some (mkSchema TypeBool false true false false (Some (VBool false)) "").
Proof. vm_compute. reflexivity. Qed.

Lemma Schema_zone_id :
  resourceCloudFlareRecord_Schema !! "zone_id"
  = Some (mkSchema TypeString false false false true None "").
Proof. vm_compute. reflexivity. Qed.

Lemma Schema_domain :
  resourceCloudFlareRecord_Schema !! "domain"
  = Some (mkSchema TypeString true false true false None "").
Proof. vm_compute. reflexivity. Qed.

(** A write of a value of the schema's type succeeds and stores it. *)
Lemma Set_stores (d : ResourceData) (key : string) (v : Value) (s : Schema) :
  resourceCloudFlareRecord_Schema !! key = Some s ->
  typeOf v = schema.Type_ s ->
  Set_ resourceCloudFlareRecord_Schema d key v
  = (None, mkResourceData (id d) (<[key := v]> (attrs d))).
Proof.
  intros Hk Ht. unfold Set_. rewrite Hk.
  rewrite bool_decide_eq_true_2 by exact Ht. reflexivity.
Qed.

(** No write changes the identifier. *)
Lemma Set_id (d : ResourceData) (key : string) (v : Value) :
  id (snd (Set_ resourceCloudFlareRecord_Schema d key v)) = id d.
Proof.
  unfold Set_.
  destruct (resourceCloudFlareRecord_Schema !! key) as [s|]; [|reflexivity].
  destruct (bool_decide (typeOf v = schema.Type_ s)); reflexivity.
Qed.

Lemma Get_stored (d : ResourceData) (key : string) (v : Value) :
  Get resourceCloudFlareRecord_Schema
    (mkResourceData (id d) (<[key := v]> (attrs d))) key = v.
Proof. unfold Get. simpl. now rewrite lookup_insert_eq. Qed.

Lemma GetOk_proxied (d : ResourceData) :
  GetOk resourceCloudFlareRecord_Schema d "proxied"
  = (Get resourceCloudFlareRecord_Schema d "proxied",
     match attrs d !! "proxied" with
     | Some v => negb (bool_decide (v = VBool false))
     | None => false
     end).
Proof.
  unfold GetOk. rewrite Schema_proxied.
  destruct (attrs d !! "proxied"); reflexivity.
Qed.

Lemma Get_proxied_unset (d : ResourceData) :
  attrs d !! "proxied" = None ->
  Get resourceCloudFlareRecord_Schema d "proxied" = VBool false.
Proof. intros E. unfold Get. rewrite E, Schema_proxied. reflexivity. Qed.

Lemma Get_proxied_set (d : ResourceData) (v : Value) :
  attrs d !! "proxied" = Some v ->
  Get resourceCloudFlareRecord_Schema d "proxied" = v.
Proof. intros E. unfold Get. now rewrite E. Qed.

Lemma Proxied_newRecord (d : ResourceData) :
  Proxied (newRecord d) = asBool (Get resourceCloudFlareRecord_Schema d "proxied").
Proof.
  unfold newRecord.
  destruct (GetOk resourceCloudFlareRecord_Schema d "priority") as [p [|]];
    destruct (GetOk resourceCloudFlareRecord_Schema d "ttl") as [t [|]];
    reflexivity.
Qed.

Lemma Proxied_updateRecord (d : ResourceData) :
  Proxied (updateRecord d)
  = match attrs d !! "proxied" with
    | Some v => asBool v
    | None => false
    end.
Proof.
  unfold updateRecord. rewrite GetOk_proxied.
  destruct (GetOk resourceCloudFlareRecord_Schema d "priority") as [p [|]];
    destruct (GetOk resourceCloudFlareRecord_Schema d "ttl") as [t [|]];
    destruct (attrs d !! "proxied") as [v|] eqn:E;
    try reflexivity;
    rewrite (Get_proxied_set d v E);
    (destruct (bool_decide (v = VBool false)) eqn:Ez;
     [apply bool_decide_eq_true_1 in Ez; subst v |]; reflexivity).
Qed.

(** On every configuration the two handlers send the same flag: the flag
    [GetOk] reports for a boolean is the value itself. *)
Lemma proxied_create_update_agree (d : ResourceData) :
  Proxied (updateRecord d) = Proxied (newRecord d).
Proof.
  rewrite Proxied_newRecord, Proxied_updateRecord.
  destruct (attrs d !! "proxied") as [v|] eqn:E.
  - now rewrite (Get_proxied_set d v E).
  - now rewrite (Get_proxied_unset d E).
Qed.

(** C2, as the code has it. Create always sends the stored [proxied]
    boolean, the one [d.Get] yields. Update sends [false] unless [proxied]
    is explicitly present among the attributes, in which case it sends the
    explicit value. The two are written differently and send the same
    flag on every configuration. *)
Theorem proxied_forward_mapping (d : ResourceData) :
  Proxied (newRecord d) = asBool (Get resourceCloudFlareRecord_Schema d "proxied")
  /\ (attrs d !! "proxied" = None -> Proxied (updateRecord d) = false)
  /\ (forall b : bool,
        attrs d !! "proxied" = Some (VBool b) -> Proxied (updateRecord d) = b)
  /\ Proxied (updateRecord d) = Proxied (newRecord d).
Proof.
  split; [apply Proxied_newRecord|].
  split; [|split]; [| |apply proxied_create_update_agree];
    rewrite Proxied_updateRecord; [intros -> | intros b ->]; reflexivity.
Qed.

(** C2, as stated, fails: no configuration tells the two mappings apart.
    With [proxied] explicitly true both send true; with [proxied]
    explicitly false, or absent, both send false. *)
Lemma proxied_asymmetry_counterexample :
  (~ exists d : ResourceData, Proxied (updateRecord d) <> Proxied (newRecord d))
  /\ (let d := mkResourceData "rec-1" (<["proxied" := VBool true]> (attrs wwwConfig)) in
      Proxied (newRecord d) = true /\ Proxied (updateRecord d) = true)
  /\ (let d := mkResourceData "rec-1" (<["proxied" := VBool false]> (attrs wwwConfig)) in
      Proxied (newRecord d) = false /\ Proxied (updateRecord d) = false)
  /\ (let d := mkResourceData "rec-1" (attrs wwwConfig) in
      Proxied (newRecord d) = false /\ Proxied (updateRecord d) = false).
Proof.
  split.
  - intros [d Hd]. apply Hd, proxied_create_update_agree.
  - vm_compute. repeat split; reflexivity.
Qed.

End ResourceDataFacts.

(** ** The handlers *)

Section HandlerFacts.

Context {W : Type}.
Variable client : API W.
Variable validateRecordName : string -> string -> option string.
Variable validateRecordType : string -> bool -> option string.

Local Arguments Get : simpl never.
Local Arguments GetOk : simpl never.
Local Arguments Set_ : simpl never.
Local Arguments strings.Contains : simpl never.
Local Arguments strings.Split : simpl never.
Local Arguments newRecord : simpl never.
Local Arguments updateRecord : simpl never.

Local Abbreviation Read := (resourceCloudFlareRecordRead client).
Local Abbreviation Create :=
  (resourceCloudFlareRecordCreate client validateRecordName validateRecordType).
Local Abbreviation Update := (resourceCloudFlareRecordUpdate client).
Local Abbreviation Delete := (resourceCloudFlareRecordDelete client).
Local Abbreviation Import := (importRecord client).
Local Abbreviation domainOf st :=
  (asString (Get resourceCloudFlareRecord_Schema (data st) "domain")).

(** Unfolds the handlers down to the calls on the client; [run_caller]
    leaves a delegated Read as it is. *)
Ltac run_caller :=
  unfold resourceCloudFlareRecordDelete,
    resourceCloudFlareRecordUpdate, resourceCloudFlareRecordCreate, importRecord,
    bind, ret, raise, attempt, d_Get, d_GetOk, d_Id, d_SetId, d_Set,
    client_ZoneIDByName, client_CreateDNSRecord, client_DNSRecord,
    client_DNSRecords, client_UpdateDNSRecord, client_DeleteDNSRecord,
    call_validateRecordName, call_validateRecordType, remote, emit;
  simpl.

Ltac run_handler :=
  unfold resourceCloudFlareRecordDelete, resourceCloudFlareRecordRead,
    resourceCloudFlareRecordUpdate, resourceCloudFlareRecordCreate, importRecord,
    bind, ret, raise, attempt, d_Get, d_GetOk, d_Id, d_SetId, d_Set,
    client_ZoneIDByName, client_CreateDNSRecord, client_DNSRecord,
    client_DNSRecords, client_UpdateDNSRecord, client_DeleteDNSRecord,
    call_validateRecordName, call_validateRecordType, remote, emit;
  simpl.

(** *** Delete *)

(** C3. When the remote delete call fails with an error whose text contains
    the not-found message, Delete returns no error; when it fails with any
    other error, Delete returns an error and leaves the resource data, and
    so the identifier, as it was. *)
Theorem Delete_remote_error (st : State W) (zoneID err : string) (w1 w2 : W)
    (Hzone : ZoneIDByName client (domainOf st) (world st) = (Done zoneID, w1))
    (Hdel : DeleteDNSRecord client zoneID (Id (data st)) w1 = (Some err, w2)) :
  (strings.Contains err recordNotFoundMessage = true ->
     fst (Delete st) = Ret tt)
  /\ (strings.Contains err recordNotFoundMessage = false ->
        fst (Delete st)
        = Raise (Errorf "Error deleting CloudFlare Record: %s" [AError err])
        /\ data (snd (Delete st)) = data st
        /\ Id (data (snd (Delete st))) = Id (data st)).
Proof.
  run_handler. rewrite Hzone. simpl. rewrite Hdel. simpl.
  split; intros ->; simpl; auto.
Qed.

(** *** Read *)

(** C4. When the fetch by identifier fails with an error whose text contains
    the not-found message, Read clears the identifier and returns no error;
    on any other fetch error it returns that error. *)
Theorem Read_fetch_error (st : State W) (zoneID err : string) (w1 w2 : W)
    (Hzone : ZoneIDByName client (domainOf st) (world st) = (Done zoneID, w1))
    (Hfetch : DNSRecordByID client zoneID (Id (data st)) w1 = (Fail err, w2)) :
  (strings.Contains err recordNotFoundMessage = true ->
     fst (Read st) = Ret tt /\ Id (data (snd (Read st))) = "")
  /\ (strings.Contains err recordNotFoundMessage = false ->
        fst (Read st) = Raise (errorString err)).
Proof.
  run_handler. rewrite Hzone. simpl. rewrite Hfetch. simpl.
  split; intros ->; simpl; auto.
Qed.

(** Read only adds events to the trace. *)
Lemma Read_trace (st : State W) :
  exists evs, trace (snd (Read st)) = (trace st ++ evs)%list.
Proof.
  run_handler.
  destruct (ZoneIDByName client _ _) as [[zoneID|err] w1]; simpl.
  - destruct (DNSRecordByID client _ _ _) as [[record|err] w2]; simpl.
    + repeat (match goal with
              | |- context [Set_ ?s ?d ?k ?v] => destruct (Set_ s d k v)
              end; simpl).
      rewrite <- !app_assoc. eexists. reflexivity.
    + destruct (strings.Contains err recordNotFoundMessage); simpl;
        rewrite <- ?app_assoc; eexists; reflexivity.
  - eexists. reflexivity.
Qed.

(** *** Create *)

Lemma Set_zone_id (d : ResourceData) (zoneID : string) :
  Set_ resourceCloudFlareRecord_Schema d "zone_id" (VString zoneID)
  = (None, mkResourceData (id d) (<["zone_id" := VString zoneID]> (attrs d))).
Proof. apply (Set_stores d _ _ _ Schema_zone_id). reflexivity. Qed.

(** C5. When validation passes, the zone resolves and the remote create call
    succeeds with a record whose identifier is empty, Create returns an
    error; the identifier is not written ([SetId] is not among the events)
    and stays what it was. *)
Theorem Create_empty_identifier (st : State W) (zoneID : string) (w1 w2 : W)
    (r : DNSRecordResponse)
    (Hname : validateRecordName (cloudflare.Type_ (newRecord (data st)))
               (Content (newRecord (data st))) = None)
    (Htype : validateRecordType (cloudflare.Type_ (newRecord (data st)))
               (Proxied (newRecord (data st))) = None)
    (Hzone : ZoneIDByName client (ZoneName (newRecord (data st))) (world st)
             = (Done zoneID, w1))
    (Hcreate : CreateDNSRecord client zoneID
                 (withZoneID zoneID (newRecord (data st))) w1 = (Done r, w2))
    (Hid : ID (Result r) = "") :
  fst (Create st)
  = Raise (Errorf "Failed to find record in Creat response; Record was empty" [])
  /\ Id (data (snd (Create st))) = Id (data st)
  /\ trace (snd (Create st))
     = (trace st
        ++ [ EValidateRecordName (cloudflare.Type_ (newRecord (data st)))
               (Content (newRecord (data st)));
             EValidateRecordType (cloudflare.Type_ (newRecord (data st)))
               (Proxied (newRecord (data st)));
             EZoneIDByName (ZoneName (newRecord (data st)));
             ESet "zone_id" (VString zoneID);
             ECreateDNSRecord zoneID (withZoneID zoneID (newRecord (data st))) ])%list.
Proof.
  run_caller. rewrite Hname, Htype. simpl. rewrite Hzone. simpl.
  rewrite Set_zone_id. simpl. rewrite Hcreate. simpl. rewrite Hid. simpl.
  rewrite <- !app_assoc. auto.
Qed.

(** C10. When validation passes and the zone resolves but the remote create
    call fails, Create returns the error with [zone_id] already set to the
    resolved zone identifier (the write comes before the call), and the
    identifier is what it was: unset if it was unset. *)
Theorem Create_remote_failure_keeps_zone_id (st : State W) (zoneID err : string)
    (w1 w2 : W)
    (Hname : validateRecordName (cloudflare.Type_ (newRecord (data st)))
               (Content (newRecord (data st))) = None)
    (Htype : validateRecordType (cloudflare.Type_ (newRecord (data st)))
               (Proxied (newRecord (data st))) = None)
    (Hzone : ZoneIDByName client (ZoneName (newRecord (data st))) (world st)
             = (Done zoneID, w1))
    (Hcreate : CreateDNSRecord client zoneID
                 (withZoneID zoneID (newRecord (data st))) w1 = (Fail err, w2)) :
  fst (Create st) = Raise (Errorf "Failed to create record: %s" [AError err])
  /\ Get resourceCloudFlareRecord_Schema (data (snd (Create st))) "zone_id"
     = VString zoneID
  /\ Id (data (snd (Create st))) = Id (data st)
  /\ (Id (data st) = "" -> Id (data (snd (Create st))) = "")
  /\ trace (snd (Create st))
     = (trace st
        ++ [ EValidateRecordName (cloudflare.Type_ (newRecord (data st)))
               (Content (newRecord (data st)));
             EValidateRecordType (cloudflare.Type_ (newRecord (data st)))
               (Proxied (newRecord (data st)));
             EZoneIDByName (ZoneName (newRecord (data st)));
             ESet "zone_id" (VString zoneID);
             ECreateDNSRecord zoneID (withZoneID zoneID (newRecord (data st))) ])%list.
Proof.
  run_caller. rewrite Hname, Htype. simpl. rewrite Hzone. simpl.
  rewrite Set_zone_id. simpl. rewrite Hcreate. simpl.
  rewrite <- !app_assoc, Get_stored. auto.
Qed.

(** C9, as the code has it. Create builds the record, then validates its
    content, then its type against the proxied flag, and only then
    resolves the zone, stores the zone identifier and calls the remote
    create. A failed validation ends the handler before any call on the
    client: the remote state is untouched. *)
Theorem Create_order (st : State W) :
  let nr := newRecord (data st) in
  let out := Create st in
  match validateRecordName (cloudflare.Type_ nr) (Content nr) with
  | Some err =>
      out = (Raise (Errorf "Error validating record name %q: %s"
                      [AString (Name nr); AError err]),
             mkState (data st) (world st)
               (trace st ++ [EValidateRecordName (cloudflare.Type_ nr) (Content nr)]))
  | None =>
  match validateRecordType (cloudflare.Type_ nr) (Proxied nr) with
  | Some err =>
      out = (Raise (Errorf "Error validating record type %q: %s"
                      [AString (cloudflare.Type_ nr); AError err]),
             mkState (data st) (world st)
               (trace st ++ [EValidateRecordName (cloudflare.Type_ nr) (Content nr);
                             EValidateRecordType (cloudflare.Type_ nr) (Proxied nr)]))
  | None =>
  match ZoneIDByName client (ZoneName nr) (world st) with
  | (Fail err, w1) =>
      out = (Raise (Errorf "Error finding zone %q: %s"
                      [AString (ZoneName nr); AError err]),
             mkState (data st) w1
               (trace st ++ [EValidateRecordName (cloudflare.Type_ nr) (Content nr);
                             EValidateRecordType (cloudflare.Type_ nr) (Proxied nr);
                             EZoneIDByName (ZoneName nr)]))
  | (Done zoneID, _) =>
      exists evs,
        trace (snd out)
        = (trace st ++ [EValidateRecordName (cloudflare.Type_ nr) (Content nr);
                        EValidateRecordType (cloudflare.Type_ nr) (Proxied nr);
                        EZoneIDByName (ZoneName nr);
                        ESet "zone_id" (VString zoneID);
                        ECreateDNSRecord zoneID (withZoneID zoneID nr)] ++ evs)%list
  end
  end
  end.
Proof.
  intros nr out. subst nr out. run_caller.
  destruct (validateRecordName _ _) as [e1|]; simpl.
  { reflexivity. }
  destruct (validateRecordType _ _) as [e2|]; simpl.
  { rewrite <- !app_assoc. reflexivity. }
  destruct (ZoneIDByName client _ _) as [[zoneID|e3] w1]; simpl.
  2:{ rewrite <- !app_assoc. reflexivity. }
  rewrite Set_zone_id. simpl.
  destruct (CreateDNSRecord client _ _ _) as [[r|e4] w2]; simpl.
  2:{ exists []. rewrite <- !app_assoc. reflexivity. }
  destruct (String.eqb (ID (Result r)) ""); simpl.
  { exists []. rewrite <- !app_assoc. reflexivity. }
  match goal with
  | |- context [resourceCloudFlareRecordRead client ?s] =>
      destruct (Read_trace s) as [evs Hevs]; rewrite Hevs
  end.
  simpl. rewrite <- !app_assoc. simpl. eexists. reflexivity.
Qed.

(** *** Update *)

(** Update sends [updateRecord], completed with the zone identifier. *)
Lemma Update_sends (st : State W) (zoneID : string) (w1 : W)
    (Hzone : ZoneIDByName client (ZoneName (updateRecord (data st))) (world st)
             = (Done zoneID, w1)) :
  exists evs,
    trace (snd (Update st))
    = (trace st
       ++ [ EZoneIDByName (ZoneName (updateRecord (data st)));
            EUpdateDNSRecord zoneID (Id (data st))
              (withZoneID zoneID (updateRecord (data st))) ] ++ evs)%list.
Proof.
  run_caller. rewrite Hzone. simpl.
  destruct (UpdateDNSRecord client _ _ _ _) as [[err|] w2]; simpl.
  - exists []. rewrite <- !app_assoc. reflexivity.
  - match goal with
    | |- context [resourceCloudFlareRecordRead client ?s] =>
        destruct (Read_trace s) as [evs Hevs]; rewrite Hevs
    end.
    simpl. rewrite <- !app_assoc. eexists. reflexivity.
Qed.

(** *** Import *)

Lemma Set_domain (d : ResourceData) (domain : string) :
  Set_ resourceCloudFlareRecord_Schema d "domain" (VString domain)
  = (None, mkResourceData (id d) (<["domain" := VString domain]> (attrs d))).
Proof. apply (Set_stores d _ _ _ Schema_domain). reflexivity. Qed.

(** C6. When splitting the identifier on ["|"] does not give exactly three
    tokens, Import returns an error and nothing else happens: no call on
    the client, no write, the state is the one it started in. With exactly
    three tokens [s], [d] and [t], the zone looked up is the one of [d] and
    the records asked for are those named [s.d] of type [t]. *)
Theorem Import_tokens (st : State W) :
  (length (strings.Split (Id (data st)) "|") <> 3 ->
     Import st
     = (Raise (Errorf "expecting subdomain|domain|type, got %q"
                 [AString (Id (data st))]), st))
  /\ (forall s d t : string,
        strings.Split (Id (data st)) "|" = [s; d; t] ->
        exists evs,
          trace (snd (Import st)) = (trace st ++ EZoneIDByName d :: evs)%list
          /\ forall (zoneID : string) (w1 : W),
               ZoneIDByName client d (world st) = (Done zoneID, w1) ->
               exists evs',
                 evs = EDNSRecords zoneID (importFilter s d t) :: evs').
Proof.
  split.
  - intros Hlen. run_caller.
    apply Nat.eqb_neq in Hlen. rewrite Hlen. simpl.
    destruct st; reflexivity.
  - intros s d t Htok. run_caller. rewrite Htok. simpl.
    destruct (ZoneIDByName client d (world st)) as [[zoneID|err] w1]; simpl.
    2:{ exists []. split; [reflexivity | intros ? ? [=]]. }
    fold (importFilter s d t).
    destruct (DNSRecords client _ _ _) as [[records|err] w2]; simpl.
    2:{ eexists. rewrite <- !app_assoc. split; [reflexivity|].
        intros ? ? [= <- _]. eexists. reflexivity. }
    destruct (length records =? 1)%nat; simpl.
    2:{ eexists. rewrite <- !app_assoc. split; [reflexivity|].
        intros ? ? [= <- _]. eexists. reflexivity. }
    rewrite Set_domain. simpl.
    match goal with
    | |- context [resourceCloudFlareRecordRead client ?s] =>
        destruct (Read_trace s) as [evs Hevs];
        destruct (resourceCloudFlareRecordRead client s) as [[[]|e] st']
    end; simpl in *; rewrite Hevs; rewrite <- !app_assoc; simpl;
      (eexists; split; [reflexivity|]; intros ? ? [= <- _]; eexists; reflexivity).
Qed.

(** C7. When the filtered lookup succeeds, Import returns an error unless
    exactly one record matches, and then the resource data is what it was.
    With exactly one match [r], the identifier is set to [r]'s and [domain]
    to the parsed domain, in that order, and Import then is Read run from
    that state: its result when Read returns no error, an error
    otherwise. *)
Theorem Import_match_count (st : State W) (s d t zoneID : string) (w1 w2 : W)
    (records : list DNSRecord)
    (Htok : strings.Split (Id (data st)) "|" = [s; d; t])
    (Hzone : ZoneIDByName client d (world st) = (Done zoneID, w1))
    (Hfound : DNSRecords client zoneID (importFilter s d t) w1 = (Done records, w2)) :
  (length records <> 1 ->
     fst (Import st)
     = Raise (Errorf "expected 1 record, got %d" [AInt (Z.of_nat (length records))])
     /\ data (snd (Import st)) = data st)
  /\ (forall r : DNSRecord,
        records = [r] ->
        let seeded :=
          mkState
            (mkResourceData (ID r) (<["domain" := VString d]> (attrs (data st))))
            w2
            (trace st ++ [ EZoneIDByName d; EDNSRecords zoneID (importFilter s d t);
                           ESetId (ID r); ESet "domain" (VString d) ]) in
        Import st
        = match Read seeded with
          | (Ret _, st') => (Ret [data st'], st')
          | (Raise _, st') =>
              (Raise (Errorf "error importing record %q" [AString (ID r)]), st')
          end).
Proof.
  split.
  - intros Hlen. run_caller. rewrite Htok. simpl.
    rewrite Hzone. simpl. fold (importFilter s d t). rewrite Hfound. simpl.
    apply Nat.eqb_neq in Hlen. rewrite Hlen. simpl. auto.
  - intros r ->. run_caller. rewrite Htok. simpl.
    rewrite Hzone. simpl. fold (importFilter s d t). rewrite Hfound. simpl.
    rewrite Set_domain. simpl. rewrite <- !app_assoc. simpl.
    destruct (resourceCloudFlareRecordRead client _) as [[[]|e] st']; reflexivity.
Qed.

(** For a non-empty subdomain the name Import filters on is the composed
    name [recordName] gives. *)
Lemma importFilter_Name (s d t : string) :
  s <> "" -> Name (importFilter s d t) = recordName s d.
Proof.
  intros Hs. unfold recordName. apply String.eqb_neq in Hs. now rewrite Hs.
Qed.

(** For the empty subdomain it is not: Import filters on [.d], while the
    composed name is [d]. *)
Lemma importFilter_Name_apex (d t : string) :
  Name (importFilter "" d t) = "." ++ d
  /\ Name (importFilter "" d t) <> recordName "" d.
Proof.
  split; [reflexivity|].
  change (Sprintf_s_dot_s "" d <> d). unfold Sprintf_s_dot_s. intros E.
  apply (f_equal String.length) in E. rewrite !length_append in E.
  simpl in E. lia.
Qed.

End HandlerFacts.

(** ** The handlers on concrete runs *)

Lemma Delete_remote_error_witness :
  ZoneIDByName goneAPI "example.com" 0 = (Done "zone-1", 1)
  /\ DeleteDNSRecord goneAPI "zone-1" "rec-1" 1
     = (Some "error from makeRequest: Invalid dns record identifier", 2)
  /\ fst (resourceCloudFlareRecordDelete goneAPI (start wwwState)) = Ret tt.
Proof.
  split; [reflexivity | split; [reflexivity|]].
  apply (Delete_remote_error goneAPI (start wwwState) "zone-1"
           "error from makeRequest: Invalid dns record identifier" 1 2);
    vm_compute; reflexivity.
Defined.

Example Delete_other_error :
  fst (resourceCloudFlareRecordDelete brokenAPI (start wwwState))
  = Raise (Errorf "Error deleting CloudFlare Record: %s" [AError "HTTP status 500"])
  /\ Id (data (snd (resourceCloudFlareRecordDelete brokenAPI (start wwwState))))
     = "rec-1".
Proof. vm_compute. split; reflexivity. Qed.

Lemma Read_fetch_error_witness :
  ZoneIDByName goneAPI "example.com" 0 = (Done "zone-1", 1)
  /\ DNSRecordByID goneAPI "zone-1" "rec-1" 1
     = (Fail "error from makeRequest: Invalid dns record identifier", 2)
  /\ fst (resourceCloudFlareRecordRead goneAPI (start wwwState)) = Ret tt
  /\ Id (data (snd (resourceCloudFlareRecordRead goneAPI (start wwwState)))) = "".
Proof.
  split; [reflexivity | split; [reflexivity|]].
  apply (Read_fetch_error goneAPI (start wwwState) "zone-1"
           "error from makeRequest: Invalid dns record identifier" 1 2);
    vm_compute; reflexivity.
Defined.

Example Read_other_error :
  fst (resourceCloudFlareRecordRead brokenAPI (start wwwState))
  = Raise (errorString "HTTP status 500").
Proof. vm_compute. reflexivity. Qed.

Lemma Create_empty_identifier_witness :
  CreateDNSRecord goneAPI "zone-1" (withZoneID "zone-1" (newRecord wwwConfig)) 1
  = (Done (mkDNSRecordResponse zeroDNSRecord), 2)
  /\ fst (resourceCloudFlareRecordCreate goneAPI acceptAll acceptAll (start wwwConfig))
     = Raise (Errorf "Failed to find record in Creat response; Record was empty" [])
  /\ Id (data (snd (resourceCloudFlareRecordCreate goneAPI acceptAll acceptAll
                      (start wwwConfig)))) = "".
Proof.
  split; [reflexivity|].
  destruct (Create_empty_identifier goneAPI acceptAll acceptAll (start wwwConfig)
              "zone-1" 1 2 (mkDNSRecordResponse zeroDNSRecord)
              eq_refl eq_refl eq_refl eq_refl eq_refl) as (Hout & Hid & _).
  split; [exact Hout | exact Hid].
Defined.

Lemma Create_remote_failure_keeps_zone_id_witness :
  CreateDNSRecord brokenAPI "zone-1" (withZoneID "zone-1" (newRecord wwwConfig)) 1
  = (Fail "HTTP status 500", 2)
  /\ fst (resourceCloudFlareRecordCreate brokenAPI acceptAll acceptAll (start wwwConfig))
     = Raise (Errorf "Failed to create record: %s" [AError "HTTP status 500"])
  /\ Get resourceCloudFlareRecord_Schema
       (data (snd (resourceCloudFlareRecordCreate brokenAPI acceptAll acceptAll
                     (start wwwConfig)))) "zone_id" = VString "zone-1"
  /\ Id (data (snd (resourceCloudFlareRecordCreate brokenAPI acceptAll acceptAll
                      (start wwwConfig)))) = "".
Proof.
  split; [reflexivity|].
  destruct (Create_remote_failure_keeps_zone_id brokenAPI acceptAll acceptAll
              (start wwwConfig) "zone-1" "HTTP status 500" 1 2
              eq_refl eq_refl eq_refl eq_refl) as (Hout & Hzone & Hid & _).
  split; [exact Hout | split; [exact Hzone | exact Hid]].
Defined.

(** C9, as stated, fails on the run that creates [wwwRecord]: both
    validation hooks run before the zone is resolved, and no zone
    resolution comes before a validation. *)
Lemma Create_order_counterexample :
  let tr := trace (snd (resourceCloudFlareRecordCreate okAPI acceptAll acceptAll
                          (start wwwConfig))) in
  tr !! 0%nat = Some (EValidateRecordName "A" "192.0.2.1")
  /\ tr !! 1%nat = Some (EValidateRecordType "A" false)
  /\ tr !! 2%nat = Some (EZoneIDByName "example.com")
  /\ occursBefore isValidation isZoneResolution tr = true
  /\ occursBefore isZoneResolution isValidation tr = false.
Proof. vm_compute. repeat split; reflexivity. Qed.

(** A rejected record never reaches the client, not even to resolve the
    zone. *)
Example Create_rejected_makes_no_call :
  resourceCloudFlareRecordCreate brokenAPI rejectAll rejectAll (start wwwConfig)
  = (Raise (Errorf "Error validating record name %q: %s"
              [AString "www.example.com"; AError "rejected"]),
     mkState wwwConfig 0 [EValidateRecordName "A" "192.0.2.1"]).
Proof. vm_compute. reflexivity. Qed.

Lemma Import_tokens_witness :
  length (strings.Split "a|b" "|") <> 3
  /\ importRecord okAPI (start (mkResourceData "a|b" ∅))
     = (Raise (Errorf "expecting subdomain|domain|type, got %q" [AString "a|b"]),
        start (mkResourceData "a|b" ∅)).
Proof.
  split; [vm_compute; discriminate|].
  apply (Import_tokens okAPI (start (mkResourceData "a|b" ∅))).
  vm_compute. discriminate.
Defined.

Example Import_four_tokens :
  fst (importRecord okAPI (start (mkResourceData "a|b|c|d" ∅)))
  = Raise (Errorf "expecting subdomain|domain|type, got %q" [AString "a|b|c|d"]).
Proof. vm_compute. reflexivity. Qed.

Lemma Import_match_count_witness :
  strings.Split "www|example.com|A" "|" = ["www"; "example.com"; "A"]
  /\ DNSRecords brokenAPI "zone-1" (importFilter "www" "example.com" "A") 1
     = (Done [wwwRecord; wwwRecord], 2)
  /\ fst (importRecord brokenAPI (start (mkResourceData "www|example.com|A" ∅)))
     = Raise (Errorf "expected 1 record, got %d" [AInt 2]).
Proof.
  split; [reflexivity | split; [reflexivity|]].
  apply (Import_match_count brokenAPI (start (mkResourceData "www|example.com|A" ∅))
           "www" "example.com" "A" "zone-1" 1 2 [wwwRecord; wwwRecord]
           eq_refl eq_refl eq_refl).
  simpl. discriminate.
Defined.

Example Import_no_match :
  fst (importRecord goneAPI (start (mkResourceData "www|example.com|A" ∅)))
  = Raise (Errorf "expected 1 record, got %d" [AInt 0]).
Proof. vm_compute. reflexivity. Qed.

Example Import_one_match :
  let out := importRecord okAPI (start (mkResourceData "www|example.com|A" ∅)) in
  fst out = Ret [data (snd out)]
  /\ Id (data (snd out)) = "rec-1"
  /\ Get resourceCloudFlareRecord_Schema (data (snd out)) "domain"
     = VString "example.com"
  /\ Get resourceCloudFlareRecord_Schema (data (snd out)) "subdomain"
     = VString "www".
Proof. vm_compute. repeat split; reflexivity. Qed.

(** C8 at the identifier of an apex record: Create names the record
    [example.com], Import asks for [.example.com]. *)
Theorem Import_apex_filter_name :
  let out := importRecord okAPI (start (mkResourceData "|example.com|A" ∅)) in
  strings.Split "|example.com|A" "|" = [""; "example.com"; "A"]
  /\ trace (snd out) !! 1%nat
     = Some (EDNSRecords "zone-1"
               (mkDNSRecord "" "A" ".example.com" "" false 0 "" "" 0))
  /\ recordName "" "example.com" = "example.com"
  /\ Name (newRecord apexConfig) = "example.com".
Proof. vm_compute. repeat split; reflexivity. Qed.

(** The scenarios of the specification, and [Split] on its edge cases. *)
Example Split_three :
  strings.Split "www|example.com|A" "|" = ["www"; "example.com"; "A"].
Proof. reflexivity. Qed.

Example Split_empty : strings.Split "" "|" = [""].
Proof. reflexivity. Qed.

Example Split_trailing : strings.Split "a||" "|" = ["a"; ""; ""].
Proof. reflexivity. Qed.

Example Split_wide_separator : strings.Split "a--b-c--" "--" = ["a"; "b-c"; ""].
Proof. reflexivity. Qed.

Example Contains_not_found :
  strings.Contains "error from makeRequest: Invalid dns record identifier"
    recordNotFoundMessage = true
  /\ strings.Contains "HTTP status 500" recordNotFoundMessage = false.
Proof. split; reflexivity. Qed.

(** * Further properties *)

(** ** Names, on every input *)

Section NameFacts.

Lemma append_empty_r (a : string) : a ++ "" = a.
Proof.
  induction a as [|c a IH]; [reflexivity|].
  rewrite append_cons. now rewrite IH.
Qed.

Lemma TrimSuffix_self (d : string) : strings.TrimSuffix d d = "".
Proof. exact (TrimSuffix_append "" d). Qed.

(** X1. Composing and decomposing is the identity on the subdomain for every
    subdomain and domain, the empty subdomain (a record at the apex)
    included. *)
Theorem subdomainName_recordName_any (s d : string) :
  subdomainName (recordName s d) d = s.
Proof.
  unfold recordName. destruct (String.eqb_spec s "") as [-> | Hs].
  - unfold subdomainName. rewrite TrimSuffix_self. reflexivity.
  - apply subdomainName_Sprintf.
Qed.

(** X2. [subdomainName] cuts the domain off wherever the name ends with it,
    at a label boundary or not, and then at most one dot: of [p ++ d] it
    keeps [p] without one trailing dot. *)
Theorem subdomainName_suffix (p d : string) :
  subdomainName (p ++ d) d = strings.TrimSuffix p ".".
Proof. unfold subdomainName. now rewrite TrimSuffix_append. Qed.

Example subdomainName_inside_label :
  subdomainName "notexample.com" "example.com" = "not".
Proof. reflexivity. Qed.

Example subdomainName_other_zone :
  subdomainName "www.example.org" "example.com" = "www.example.org".
Proof. reflexivity. Qed.

End NameFacts.

(** ** [Split] on a one-byte separator *)

Section SplitFacts.

Variable c : ascii.
Local Abbreviation sep := (String c EmptyString).

Lemma prefix_sep (x : ascii) (s : string) :
  String.prefix sep (String x s) = bool_decide (c = x).
Proof.
  simpl. destruct (ascii_dec c x) as [E|E].
  - rewrite bool_decide_eq_true_2 by exact E. destruct s; reflexivity.
  - rewrite bool_decide_eq_false_2 by exact E. reflexivity.
Qed.

Lemma Contains_sep_cons (x : ascii) (s : string) :
  strings.Contains (String x s) sep = bool_decide (c = x) || strings.Contains s sep.
Proof.
  change (strings.Contains (String x s) sep)
    with (String.prefix sep (String x s) || strings.Contains s sep).
  now rewrite prefix_sep.
Qed.

Lemma splitScan_cons (cur : string) (x : ascii) (s : string) :
  strings.splitScan sep 0 cur (String x s)
  = if bool_decide (c = x)
    then cur :: strings.splitScan sep 0 "" s
    else strings.splitScan sep 0 (cur ++ String x "") s.
Proof.
  change (strings.splitScan sep 0 cur (String x s))
    with (if String.prefix sep (String x s)
          then cur :: strings.splitScan sep 0 "" s
          else strings.splitScan sep 0 (cur ++ String x "") s).
  now rewrite prefix_sep.
Qed.

Lemma append_snoc (cur : string) (x : ascii) (s : string) :
  (cur ++ String x "") ++ s = cur ++ String x s.
Proof. now rewrite append_assoc. Qed.

(** A string without the separator is one token. *)
Lemma splitScan_plain (a cur : string) :
  strings.Contains a sep = false ->
  strings.splitScan sep 0 cur a = [cur ++ a].
Proof.
  revert cur. induction a as [|x a IH]; intros cur H.
  - simpl. now rewrite append_empty_r.
  - rewrite Contains_sep_cons in H. apply orb_false_iff in H as [Hx Ha].
    rewrite splitScan_cons, Hx, (IH _ Ha), append_snoc. reflexivity.
Qed.

(** A token ends at the first separator. *)
Lemma splitScan_token (a cur rest : string) :
  strings.Contains a sep = false ->
  strings.splitScan sep 0 cur (a ++ String c rest)
  = (cur ++ a) :: strings.splitScan sep 0 "" rest.
Proof.
  revert cur. induction a as [|x a IH]; intros cur H.
  - change ("" ++ String c rest) with (String c rest).
    rewrite splitScan_cons, bool_decide_eq_true_2 by reflexivity.
    now rewrite append_empty_r.
  - rewrite Contains_sep_cons in H. apply orb_false_iff in H as [Hx Ha].
    rewrite append_cons, splitScan_cons, Hx, (IH _ Ha), append_snoc. reflexivity.
Qed.

Lemma splitScan_not_nil (cur s : string) : strings.splitScan sep 0 cur s <> [].
Proof.
  revert cur. induction s as [|x s IH]; intros cur; [discriminate|].
  rewrite splitScan_cons. destruct (bool_decide (c = x)); [discriminate | apply IH].
Qed.

Lemma concat_splitScan (s cur : string) :
  String.concat sep (strings.splitScan sep 0 cur s) = cur ++ s.
Proof.
  revert cur. induction s as [|x s IH]; intros cur.
  - simpl. now rewrite append_empty_r.
  - rewrite splitScan_cons. destruct (bool_decide (c = x)) eqn:E.
    + apply bool_decide_eq_true_1 in E. subst x.
      pose proof (splitScan_not_nil "" s) as Hne.
      destruct (strings.splitScan sep 0 "" s) as [|tok toks] eqn:Es; [easy|].
      change (String.concat sep (cur :: tok :: toks))
        with (cur ++ sep ++ String.concat sep (tok :: toks)).
      rewrite <- Es, IH. reflexivity.
    + rewrite IH. apply append_snoc.
Qed.

(** X3. Three tokens without the separator, joined by it, split back into
    exactly these three tokens. *)
Theorem Split_join_three (s d t : string)
    (Hs : strings.Contains s sep = false)
    (Hd : strings.Contains d sep = false)
    (Ht : strings.Contains t sep = false) :
  strings.Split (s ++ sep ++ d ++ sep ++ t) sep = [s; d; t].
Proof.
  unfold strings.Split.
  change (sep ++ d ++ sep ++ t) with (String c (d ++ String c t)).
  rewrite (splitScan_token s "" _ Hs), (splitScan_token d "" _ Hd),
    (splitScan_plain t "" Ht).
  reflexivity.
Qed.

(** X4. Joining the tokens of [Split] with the separator gives the string
    back: splitting loses nothing, empty tokens included. *)
Theorem concat_Split (s : string) :
  String.concat sep (strings.Split s sep) = s.
Proof. unfold strings.Split. apply concat_splitScan. Qed.

End SplitFacts.

Lemma Split_join_three_witness :
  strings.Contains "www" "|" = false
  /\ strings.Contains "example.com" "|" = false
  /\ strings.Contains "A" "|" = false
  /\ strings.Split ("www" ++ "|" ++ "example.com" ++ "|" ++ "A") "|"
     = ["www"; "example.com"; "A"].
Proof.
  repeat (split; [reflexivity|]).
  apply (Split_join_three "|"%char "www" "example.com" "A"); reflexivity.
Defined.

(** ** The handlers, path by path *)

Ltac unfold_calls :=
  unfold bind, ret, raise, attempt, d_Get, d_GetOk, d_Id, d_SetId, d_Set,
    client_ZoneIDByName, client_CreateDNSRecord, client_DNSRecord,
    client_DNSRecords, client_UpdateDNSRecord, client_DeleteDNSRecord,
    call_validateRecordName, call_validateRecordType, remote, emit.

(** Rewrites the next write into the value it stores. *)
Ltac store_next :=
  erewrite Set_stores by (vm_compute; reflexivity); simpl.

Section PathFacts.

Context {W : Type}.
Variable client : API W.
Variable validateRecordName : string -> string -> option string.
Variable validateRecordType : string -> bool -> option string.

Local Arguments Get : simpl never.
Local Arguments GetOk : simpl never.
Local Arguments Set_ : simpl never.
Local Arguments strings.Contains : simpl never.
Local Arguments strings.Split : simpl never.
Local Arguments newRecord : simpl never.
Local Arguments updateRecord : simpl never.
Local Arguments subdomainName : simpl never.

Local Abbreviation Read := (resourceCloudFlareRecordRead client).
Local Abbreviation Create :=
  (resourceCloudFlareRecordCreate client validateRecordName validateRecordType).
Local Abbreviation Update := (resourceCloudFlareRecordUpdate client).
Local Abbreviation Delete := (resourceCloudFlareRecordDelete client).
Local Abbreviation Import := (importRecord client).
Local Abbreviation domainOf st :=
  (asString (Get resourceCloudFlareRecord_Schema (data st) "domain")).

Lemma Get_insert (i key : string) (v : Value) (m : gmap string Value) :
  Get resourceCloudFlareRecord_Schema (mkResourceData i (<[key := v]> m)) key = v.
Proof. unfold Get. simpl. now rewrite lookup_insert_eq. Qed.

Lemma Get_insert_ne (i key key' : string) (v : Value) (m : gmap string Value) :
  key <> key' ->
  Get resourceCloudFlareRecord_Schema (mkResourceData i (<[key := v]> m)) key'
  = Get resourceCloudFlareRecord_Schema (mkResourceData i m) key'.
Proof. intros H. unfold Get. simpl. now rewrite lookup_insert_ne. Qed.

Lemma Get_id_irrelevant (i j key : string) (m : gmap string Value) :
  Get resourceCloudFlareRecord_Schema (mkResourceData i m) key
  = Get resourceCloudFlareRecord_Schema (mkResourceData j m) key.
Proof. reflexivity. Qed.

Lemma ZoneName_newRecord (d : ResourceData) :
  ZoneName (newRecord d) = asString (Get resourceCloudFlareRecord_Schema d "domain").
Proof.
  unfold newRecord.
  destruct (GetOk resourceCloudFlareRecord_Schema d "priority") as [p [|]];
    destruct (GetOk resourceCloudFlareRecord_Schema d "ttl") as [t [|]];
    reflexivity.
Qed.

Lemma ZoneName_updateRecord (d : ResourceData) :
  ZoneName (updateRecord d) = asString (Get resourceCloudFlareRecord_Schema d "domain").
Proof.
  unfold updateRecord.
  destruct (GetOk resourceCloudFlareRecord_Schema d "priority") as [p [|]];
    destruct (GetOk resourceCloudFlareRecord_Schema d "proxied") as [x [|]];
    destruct (GetOk resourceCloudFlareRecord_Schema d "ttl") as [t [|]];
    reflexivity.
Qed.

(** What Read leaves behind when the zone resolves and the record is
    fetched: the state, in full. *)
Lemma Read_done (st : State W) (zoneID : string) (w1 w2 : W) (record : DNSRecord) :
  ZoneIDByName client (domainOf st) (world st) = (Done zoneID, w1) ->
  DNSRecordByID client zoneID (Id (data st)) w1 = (Done record, w2) ->
  Read st
  = (Ret tt,
     mkState
       (mkResourceData (ID record)
          (<["zone_id" := VString zoneID]>
           (<["proxied" := VBool (Proxied record)]>
            (<["priority" := VInt (Priority record)]>
             (<["ttl" := VInt (TTL record)]>
              (<["value" := VString (Content record)]>
               (<["subdomain" := VString (subdomainName (Name record) (domainOf st))]>
                (<["type" := VString (cloudflare.Type_ record)]>
                 (attrs (data st))))))))))
       w2
       (trace st
        ++ [ EZoneIDByName (domainOf st); EDNSRecord zoneID (Id (data st));
             ESetId (ID record);
             ESet "type" (VString (cloudflare.Type_ record));
             ESet "subdomain" (VString (subdomainName (Name record) (domainOf st)));
             ESet "value" (VString (Content record));
             ESet "ttl" (VInt (TTL record));
             ESet "priority" (VInt (Priority record));
             ESet "proxied" (VBool (Proxied record));
             ESet "zone_id" (VString zoneID) ])).
Proof.
  intros Hzone Hfetch.
  unfold resourceCloudFlareRecordRead. unfold_calls. simpl.
  rewrite Hzone. simpl. rewrite Hfetch. simpl.
  do 7 store_next.
  rewrite <- !app_assoc. reflexivity.
Qed.

Lemma Read_no_zone (st : State W) (err : string) (w1 : W) :
  ZoneIDByName client (domainOf st) (world st) = (Fail err, w1) ->
  Read st
  = (Raise (Errorf "Error finding zone %q: %s" [AString (domainOf st); AError err]),
     mkState (data st) w1 (trace st ++ [EZoneIDByName (domainOf st)])).
Proof.
  intros Hzone. unfold resourceCloudFlareRecordRead. unfold_calls. simpl.
  rewrite Hzone. reflexivity.
Qed.

Lemma Read_no_record (st : State W) (zoneID err : string) (w1 w2 : W) :
  ZoneIDByName client (domainOf st) (world st) = (Done zoneID, w1) ->
  DNSRecordByID client zoneID (Id (data st)) w1 = (Fail err, w2) ->
  Read st
  = if strings.Contains err recordNotFoundMessage
    then (Ret tt,
          mkState (SetId (data st) "") w2
            (trace st ++ [ EZoneIDByName (domainOf st);
                           EDNSRecord zoneID (Id (data st)); ESetId "" ]))
    else (Raise (errorString err),
          mkState (data st) w2
            (trace st ++ [ EZoneIDByName (domainOf st);
                           EDNSRecord zoneID (Id (data st)) ])).
Proof.
  intros Hzone Hfetch. unfold resourceCloudFlareRecordRead. unfold_calls. simpl.
  rewrite Hzone. simpl. rewrite Hfetch. simpl.
  destruct (strings.Contains err recordNotFoundMessage); simpl;
    rewrite <- !app_assoc; reflexivity.
Qed.

(** X5. The reverse mapping: when the zone resolves and the record is
    fetched, Read returns no error and leaves the identifier, type,
    content, TTL, priority, proxied flag and zone identifier of the fetched
    record in the resource data, with the subdomain recomputed from the
    record's name; every one of its writes is accepted by the schema. *)
Theorem Read_reverse_mapping (st : State W) (zoneID : string) (w1 w2 : W)
    (record : DNSRecord)
    (Hzone : ZoneIDByName client (domainOf st) (world st) = (Done zoneID, w1))
    (Hfetch : DNSRecordByID client zoneID (Id (data st)) w1 = (Done record, w2)) :
  let get := Get resourceCloudFlareRecord_Schema (data (snd (Read st))) in
  fst (Read st) = Ret tt
  /\ Id (data (snd (Read st))) = ID record
  /\ get "type" = VString (cloudflare.Type_ record)
  /\ get "subdomain" = VString (subdomainName (Name record) (domainOf st))
  /\ get "value" = VString (Content record)
  /\ get "ttl" = VInt (TTL record)
  /\ get "priority" = VInt (Priority record)
  /\ get "proxied" = VBool (Proxied record)
  /\ get "zone_id" = VString zoneID.
Proof.
  rewrite (Read_done st zoneID w1 w2 record Hzone Hfetch). simpl.
  repeat split;
    repeat (rewrite Get_insert_ne by discriminate); apply Get_insert.
Qed.

(** X6. Read never changes the [domain] attribute, whatever the client
    answers. *)
Theorem Read_keeps_domain (st : State W) :
  Get resourceCloudFlareRecord_Schema (data (snd (Read st))) "domain"
  = Get resourceCloudFlareRecord_Schema (data st) "domain".
Proof.
  destruct (ZoneIDByName client (domainOf st) (world st)) as [[zoneID|err] w1] eqn:Hzone.
  2:{ rewrite (Read_no_zone st err w1 Hzone). reflexivity. }
  destruct (DNSRecordByID client zoneID (Id (data st)) w1) as [[record|err] w2] eqn:Hfetch.
  - rewrite (Read_done st zoneID w1 w2 record Hzone Hfetch). simpl.
    repeat (rewrite Get_insert_ne by discriminate). reflexivity.
  - rewrite (Read_no_record st zoneID err w1 w2 Hzone Hfetch).
    destruct (strings.Contains err recordNotFoundMessage); reflexivity.
Qed.

(** X7. When the zone does not resolve, Read, Update and Delete each return
    the zone error after that one call: no record call is made and the
    resource data is untouched. *)
Theorem zone_failure_stops (st : State W) (err : string) (w1 : W)
    (Hzone : ZoneIDByName client (domainOf st) (world st) = (Fail err, w1)) :
  let stopped :=
    (Raise (Errorf "Error finding zone %q: %s" [AString (domainOf st); AError err]),
     mkState (data st) w1 (trace st ++ [EZoneIDByName (domainOf st)])) in
  Read st = stopped /\ Update st = stopped /\ Delete st = stopped.
Proof.
  simpl. split; [exact (Read_no_zone st err w1 Hzone)|]. split.
  - unfold resourceCloudFlareRecordUpdate. unfold_calls. simpl.
    rewrite ZoneName_updateRecord, Hzone. reflexivity.
  - unfold resourceCloudFlareRecordDelete. unfold_calls. simpl.
    rewrite Hzone. reflexivity.
Qed.

(** X8. Delete never writes the resource data, and it returns no error
    exactly when the zone resolves and the remote delete either succeeds
    or fails with the not-found text. *)
Theorem Delete_outcome (st : State W) :
  data (snd (Delete st)) = data st
  /\ (fst (Delete st) = Ret tt <->
      exists (zoneID : string) (w1 : W),
        ZoneIDByName client (domainOf st) (world st) = (Done zoneID, w1)
        /\ match fst (DeleteDNSRecord client zoneID (Id (data st)) w1) with
           | None => True
           | Some err => strings.Contains err recordNotFoundMessage = true
           end).
Proof.
  unfold resourceCloudFlareRecordDelete. unfold_calls. simpl.
  destruct (ZoneIDByName client (domainOf st) (world st)) as [[zoneID|err] w1]; simpl.
  2:{ split; [reflexivity|]. split; [discriminate | intros (? & ? & [=] & _)]. }
  destruct (DeleteDNSRecord client zoneID (Id (data st)) w1) as [[err|] w2] eqn:Hdel;
    simpl.
  - destruct (strings.Contains err recordNotFoundMessage) eqn:Hc; simpl;
      (split; [reflexivity|]); split.
    + intros _. exists zoneID, w1. rewrite Hdel. simpl. auto.
    + reflexivity.
    + discriminate.
    + intros (z & w & [= <- <-] & H). rewrite Hdel in H. simpl in H. congruence.
  - split; [reflexivity|]. split; [|reflexivity].
    intros _. exists zoneID, w1. rewrite Hdel. simpl. auto.
Qed.

(** X9. Update with a resolved zone: when the remote update fails, the
    error is returned with the resource data untouched and nothing is read
    back; when it succeeds, Update is Read run from the state the call
    left. The call carries [updateRecord] under the resource's
    identifier. *)
Theorem Update_outcome (st : State W) (zoneID : string) (w1 : W)
    (Hzone : ZoneIDByName client (domainOf st) (world st) = (Done zoneID, w1)) :
  let sent := withZoneID zoneID (updateRecord (data st)) in
  let after w2 :=
    mkState (data st) w2
      (trace st ++ [ EZoneIDByName (domainOf st);
                     EUpdateDNSRecord zoneID (Id (data st)) sent ]) in
  match UpdateDNSRecord client zoneID (Id (data st)) sent w1 with
  | (Some err, w2) =>
      Update st
      = (Raise (Errorf "Failed to update CloudFlare Record: %s" [AError err]),
         after w2)
  | (None, w2) => Update st = Read (after w2)
  end.
Proof.
  simpl. unfold resourceCloudFlareRecordUpdate. unfold_calls. simpl.
  rewrite ZoneName_updateRecord, Hzone. simpl.
  destruct (UpdateDNSRecord client zoneID (Id (data st)) _ w1) as [[err|] w2]; simpl;
    rewrite <- !app_assoc; reflexivity.
Qed.

(** *** Create *)

(** X10. When validation passes, the zone resolves and the remote create
    returns a record with a non-empty identifier, Create stores that
    identifier and is then Read run from the resulting state: what Create
    leaves in the resource data is what Read fetches, not the create
    reply. *)
Theorem Create_success (st : State W) (zoneID : string) (w1 w2 : W)
    (r : DNSRecordResponse)
    (Hname : validateRecordName (cloudflare.Type_ (newRecord (data st)))
               (Content (newRecord (data st))) = None)
    (Htype : validateRecordType (cloudflare.Type_ (newRecord (data st)))
               (Proxied (newRecord (data st))) = None)
    (Hzone : ZoneIDByName client (domainOf st) (world st) = (Done zoneID, w1))
    (Hcreate : CreateDNSRecord client zoneID
                 (withZoneID zoneID (newRecord (data st))) w1 = (Done r, w2))
    (Hid : ID (Result r) <> "") :
  Create st
  = Read
      (mkState
         (mkResourceData (ID (Result r))
            (<["zone_id" := VString zoneID]> (attrs (data st))))
         w2
         (trace st
          ++ [ EValidateRecordName (cloudflare.Type_ (newRecord (data st)))
                 (Content (newRecord (data st)));
               EValidateRecordType (cloudflare.Type_ (newRecord (data st)))
                 (Proxied (newRecord (data st)));
               EZoneIDByName (domainOf st);
               ESet "zone_id" (VString zoneID);
               ECreateDNSRecord zoneID (withZoneID zoneID (newRecord (data st)));
               ESetId (ID (Result r)) ])).
Proof.
  unfold resourceCloudFlareRecordCreate. unfold_calls. simpl.
  rewrite Hname, Htype. simpl. rewrite ZoneName_newRecord, Hzone. simpl.
  rewrite Set_zone_id. simpl. rewrite Hcreate. simpl.
  apply String.eqb_neq in Hid. rewrite Hid. simpl.
  rewrite <- !app_assoc. reflexivity.
Qed.

(** X11. Create changes the identifier only after a remote create that
    returned a non-empty identifier: on every other path (a rejected
    record, an unknown zone, a failed or empty create) the identifier is
    what it was. *)
Theorem Create_sets_id_only_after_create (st : State W)
    (Hchanged : Id (data (snd (Create st))) <> Id (data st)) :
  exists (zoneID : string) (w1 w2 : W) (r : DNSRecordResponse),
    validateRecordName (cloudflare.Type_ (newRecord (data st)))
      (Content (newRecord (data st))) = None
    /\ validateRecordType (cloudflare.Type_ (newRecord (data st)))
         (Proxied (newRecord (data st))) = None
    /\ ZoneIDByName client (domainOf st) (world st) = (Done zoneID, w1)
    /\ CreateDNSRecord client zoneID (withZoneID zoneID (newRecord (data st))) w1
       = (Done r, w2)
    /\ ID (Result r) <> "".
Proof.
  revert Hchanged.
  unfold resourceCloudFlareRecordCreate. unfold_calls. simpl.
  destruct (validateRecordName _ _) as [e1|] eqn:Hname; simpl; [easy|].
  destruct (validateRecordType _ _) as [e2|] eqn:Htype; simpl; [easy|].
  rewrite ZoneName_newRecord.
  destruct (ZoneIDByName client _ _) as [[zoneID|e3] w1] eqn:Hzone; simpl; [|easy].
  rewrite Set_zone_id. simpl.
  destruct (CreateDNSRecord client _ _ _) as [[r|e4] w2] eqn:Hcreate; simpl; [|easy].
  destruct (String.eqb_spec (ID (Result r)) "") as [Hid|Hid]; simpl; [easy|].
  intros _. exists zoneID, w1, w2, r. auto.
Qed.

(** X12. The two forward mappings build the same record but for the
    identifier: Update sends what Create would send for the same
    configuration, under the resource's identifier. Create's record has no
    identifier and neither carries a zone identifier before the zone is
    resolved. *)
Theorem forward_mappings_agree (d : ResourceData) :
  updateRecord d
  = mkDNSRecord (Id d) (cloudflare.Type_ (newRecord d)) (Name (newRecord d))
      (Content (newRecord d)) (Proxied (newRecord d)) (TTL (newRecord d))
      "" (ZoneName (newRecord d)) (Priority (newRecord d))
  /\ ID (newRecord d) = ""
  /\ ZoneID (newRecord d) = "".
Proof.
  unfold updateRecord, newRecord. rewrite GetOk_proxied.
  destruct (GetOk resourceCloudFlareRecord_Schema d "priority") as [p [|]];
    destruct (GetOk resourceCloudFlareRecord_Schema d "ttl") as [t [|]];
    destruct (attrs d !! "proxied") as [v|] eqn:E;
    try (rewrite (Get_proxied_unset d E); repeat split; reflexivity);
    rewrite (Get_proxied_set d v E);
    (destruct (bool_decide (v = VBool false)) eqn:Ez;
     [apply bool_decide_eq_true_1 in Ez; subst v |]; repeat split; reflexivity).
Qed.

(** *** The not-found text *)

Lemma prefix_append (m b : string) : String.prefix m (m ++ b) = true.
Proof.
  induction m as [|x m IH].
  - destruct b; reflexivity.
  - rewrite append_cons. simpl. destruct (ascii_dec x x); [exact IH | contradiction].
Qed.

Lemma Contains_prefix (s m : string) :
  String.prefix m s = true -> strings.Contains s m = true.
Proof.
  intros H. destruct s.
  - change (String.prefix m "" || false = true). now rewrite H.
  - change (String.prefix m (String a s) || strings.Contains s m = true).
    now rewrite H.
Qed.

Lemma Contains_infix (pre m post : string) :
  strings.Contains (pre ++ m ++ post) m = true.
Proof.
  induction pre as [|x pre IH].
  - change ("" ++ m ++ post) with (m ++ post).
    apply Contains_prefix, prefix_append.
  - rewrite append_cons.
    change (String.prefix m (String x (pre ++ m ++ post))
            || strings.Contains (pre ++ m ++ post) m = true).
    rewrite IH. apply orb_true_r.
Qed.

(** X13. The not-found text is recognised wherever it stands in the error
    text: with anything before and after it, Read clears the identifier
    and returns no error, and Delete returns no error. *)
Theorem not_found_text_anywhere (st : State W) (zoneID pre post : string) (w1 : W)
    (Hzone : ZoneIDByName client (domainOf st) (world st) = (Done zoneID, w1)) :
  let text := pre ++ recordNotFoundMessage ++ post in
  (forall w2,
     DNSRecordByID client zoneID (Id (data st)) w1 = (Fail text, w2) ->
     fst (Read st) = Ret tt /\ Id (data (snd (Read st))) = "")
  /\ (forall w2,
        DeleteDNSRecord client zoneID (Id (data st)) w1 = (Some text, w2) ->
        fst (Delete st) = Ret tt).
Proof.
  simpl. split; intros w2 H.
  - rewrite (Read_no_record st zoneID _ w1 w2 Hzone H), Contains_infix.
    split; reflexivity.
  - unfold resourceCloudFlareRecordDelete. unfold_calls. simpl.
    rewrite Hzone. simpl. rewrite H. simpl. now rewrite Contains_infix.
Qed.

(** *** Import *)

(** X14. With three tokens, an unknown zone or a failed lookup ends Import
    with that error (after one call, two calls), and the resource data is
    untouched. *)
Theorem Import_lookup_failure (st : State W) (s d t : string)
    (Htok : strings.Split (Id (data st)) "|" = [s; d; t]) :
  match ZoneIDByName client d (world st) with
  | (Fail err, w1) =>
      Import st
      = (Raise (Errorf "error finding zone %q: %s" [AString d; AError err]),
         mkState (data st) w1 (trace st ++ [EZoneIDByName d]))
  | (Done zoneID, w1) =>
      forall (err : string) (w2 : W),
        DNSRecords client zoneID (importFilter s d t) w1 = (Fail err, w2) ->
        Import st
        = (Raise (Errorf "error filtering DNS records: %q" [AError err]),
           mkState (data st) w2
             (trace st ++ [ EZoneIDByName d;
                            EDNSRecords zoneID (importFilter s d t) ]))
  end.
Proof.
  unfold importRecord. unfold_calls. simpl. rewrite Htok. simpl.
  destruct (ZoneIDByName client d (world st)) as [[zoneID|err] w1]; simpl;
    [|reflexivity].
  intros err w2 Hfound. rewrite Hfound. simpl.
  rewrite <- !app_assoc. reflexivity.
Qed.

(** X15. Import writes the resource data only when the lookup found exactly
    one record: if the data differs afterwards, the identifier had three
    tokens, the zone resolved and the lookup returned a single record. *)
Theorem Import_writes_only_on_unique_match (st : State W)
    (Hchanged : data (snd (Import st)) <> data st) :
  exists (s d t zoneID : string) (w1 w2 : W) (r : DNSRecord),
    strings.Split (Id (data st)) "|" = [s; d; t]
    /\ ZoneIDByName client d (world st) = (Done zoneID, w1)
    /\ DNSRecords client zoneID (importFilter s d t) w1 = (Done [r], w2).
Proof.
  revert Hchanged. unfold importRecord. unfold_calls. simpl.
  destruct (strings.Split (Id (data st)) "|") as [|s [|d [|t [|x l]]]];
    simpl; try easy.
  destruct (ZoneIDByName client d (world st)) as [[zoneID|err] w1] eqn:Hzone;
    simpl; [|easy].
  destruct (DNSRecords client zoneID (importFilter s d t) w1)
    as [[records|err] w2] eqn:Hfound; simpl; [|easy].
  destruct records as [|r [|r' records]]; simpl; try easy.
  intros _. exists s, d, t, zoneID, w1, w2, r. auto.
Qed.

(** X16. Import, end to end: with three tokens, a resolved zone, a single
    match, and a Read that resolves the zone again and fetches the record
    by the matched identifier, Import returns the resource data with the
    parsed domain and with the identifier, type, zone identifier and
    recomputed subdomain of the fetched record. *)
Theorem Import_adopts_unique_match (st : State W) (s d t zoneID zoneID' : string)
    (w1 w2 w3 w4 : W) (r record : DNSRecord)
    (Htok : strings.Split (Id (data st)) "|" = [s; d; t])
    (Hzone : ZoneIDByName client d (world st) = (Done zoneID, w1))
    (Hfound : DNSRecords client zoneID (importFilter s d t) w1 = (Done [r], w2))
    (Hzone' : ZoneIDByName client d w2 = (Done zoneID', w3))
    (Hfetch : DNSRecordByID client zoneID' (ID r) w3 = (Done record, w4)) :
  let get := Get resourceCloudFlareRecord_Schema (data (snd (Import st))) in
  fst (Import st) = Ret [data (snd (Import st))]
  /\ world (snd (Import st)) = w4
  /\ Id (data (snd (Import st))) = ID record
  /\ get "domain" = VString d
  /\ get "subdomain" = VString (subdomainName (Name record) d)
  /\ get "type" = VString (cloudflare.Type_ record)
  /\ get "zone_id" = VString zoneID'.
Proof.
  unfold importRecord. unfold_calls. simpl. rewrite Htok. simpl.
  rewrite Hzone. simpl. rewrite Hfound. simpl. rewrite Set_domain. simpl.
  match goal with
  | |- context [resourceCloudFlareRecordRead client ?seeded] =>
      pose proof (Read_done seeded zoneID' w3 w4 record) as HR
  end.
  simpl in HR. rewrite Get_insert in HR. simpl in HR.
  rewrite (HR Hzone' Hfetch). simpl.
  repeat split;
    repeat (rewrite Get_insert_ne by discriminate); apply Get_insert.
Qed.

End PathFacts.

(** ** The paths on concrete runs *)

Lemma Read_reverse_mapping_witness :
  ZoneIDByName okAPI "example.com" 0 = (Done "zone-1", 1)
  /\ DNSRecordByID okAPI "zone-1" "rec-1" 1 = (Done wwwRecord, 2)
  /\ fst (resourceCloudFlareRecordRead okAPI (start wwwState)) = Ret tt
  /\ Get resourceCloudFlareRecord_Schema
       (data (snd (resourceCloudFlareRecordRead okAPI (start wwwState)))) "subdomain"
     = VString "www".
Proof.
  split; [reflexivity | split; [reflexivity|]].
  destruct (Read_reverse_mapping okAPI (start wwwState) "zone-1" 1 2 wwwRecord
              eq_refl eq_refl) as (Hout & _ & _ & Hsub & _).
  split; [exact Hout | exact Hsub].
Defined.

Lemma zone_failure_stops_witness :
  ZoneIDByName noZoneAPI "example.com" 0 = (Fail "Zone could not be found", 1)
  /\ resourceCloudFlareRecordDelete noZoneAPI (start wwwState)
     = (Raise (Errorf "Error finding zone %q: %s"
                 [AString "example.com"; AError "Zone could not be found"]),
        mkState wwwState 1 [EZoneIDByName "example.com"]).
Proof.
  split; [reflexivity|].
  apply (zone_failure_stops noZoneAPI (start wwwState) "Zone could not be found" 1).
  reflexivity.
Defined.

Lemma Update_outcome_witness :
  ZoneIDByName brokenAPI "example.com" 0 = (Done "zone-1", 1)
  /\ resourceCloudFlareRecordUpdate brokenAPI (start wwwState)
     = (Raise (Errorf "Failed to update CloudFlare Record: %s" [AError "HTTP status 500"]),
        mkState wwwState 2
          [ EZoneIDByName "example.com";
            EUpdateDNSRecord "zone-1" "rec-1"
              (withZoneID "zone-1" (updateRecord wwwState)) ]).
Proof.
  split; [reflexivity|].
  exact (Update_outcome brokenAPI (start wwwState) "zone-1" 1 eq_refl).
Defined.

Lemma Create_success_witness :
  CreateDNSRecord okAPI "zone-1" (withZoneID "zone-1" (newRecord wwwConfig)) 1
  = (Done (mkDNSRecordResponse wwwRecord), 2)
  /\ ID wwwRecord <> ""
  /\ Id (data (snd (resourceCloudFlareRecordCreate okAPI acceptAll acceptAll
                      (start wwwConfig)))) = "rec-1".
Proof.
  split; [reflexivity | split; [discriminate|]].
  rewrite (Create_success okAPI acceptAll acceptAll (start wwwConfig) "zone-1" 1 2
             (mkDNSRecordResponse wwwRecord) eq_refl eq_refl eq_refl eq_refl).
  - reflexivity.
  - discriminate.
Defined.

Lemma Create_sets_id_only_after_create_witness :
  Id (data (snd (resourceCloudFlareRecordCreate okAPI acceptAll acceptAll
                   (start wwwConfig)))) <> Id wwwConfig
  /\ exists (zoneID : string) (w1 w2 : nat) (r : DNSRecordResponse),
       acceptAll (cloudflare.Type_ (newRecord wwwConfig)) (Content (newRecord wwwConfig))
       = None
       /\ acceptAll (cloudflare.Type_ (newRecord wwwConfig)) (Proxied (newRecord wwwConfig))
          = None
       /\ ZoneIDByName okAPI "example.com" 0 = (Done zoneID, w1)
       /\ CreateDNSRecord okAPI zoneID (withZoneID zoneID (newRecord wwwConfig)) w1
          = (Done r, w2)
       /\ ID (Result r) <> "".
Proof.
  split; [vm_compute; discriminate|].
  apply (Create_sets_id_only_after_create okAPI acceptAll acceptAll (start wwwConfig)).
  vm_compute. discriminate.
Defined.

Lemma not_found_text_anywhere_witness :
  ZoneIDByName goneAPI "example.com" 0 = (Done "zone-1", 1)
  /\ DeleteDNSRecord goneAPI "zone-1" "rec-1" 1
     = (Some ("error from makeRequest: " ++ recordNotFoundMessage ++ ""), 2)
  /\ fst (resourceCloudFlareRecordDelete goneAPI (start wwwState)) = Ret tt.
Proof.
  split; [reflexivity | split; [reflexivity|]].
  destruct (not_found_text_anywhere goneAPI (start wwwState) "zone-1"
              "error from makeRequest: " "" 1 eq_refl) as [_ Hdelete].
  exact (Hdelete 2 eq_refl).
Defined.

Lemma Import_lookup_failure_witness :
  strings.Split "www|example.com|A" "|" = ["www"; "example.com"; "A"]
  /\ importRecord noZoneAPI (start (mkResourceData "www|example.com|A" ∅))
     = (Raise (Errorf "error finding zone %q: %s"
                 [AString "example.com"; AError "Zone could not be found"]),
        mkState (mkResourceData "www|example.com|A" ∅) 1
          [EZoneIDByName "example.com"]).
Proof.
  split; [reflexivity|].
  exact (Import_lookup_failure noZoneAPI
           (start (mkResourceData "www|example.com|A" ∅))
           "www" "example.com" "A" eq_refl).
Defined.

Example Import_list_failure :
  importRecord noListAPI (start (mkResourceData "www|example.com|A" ∅))
  = (Raise (Errorf "error filtering DNS records: %q" [AError "HTTP status 500"]),
     mkState (mkResourceData "www|example.com|A" ∅) 2
       [ EZoneIDByName "example.com";
         EDNSRecords "zone-1" (importFilter "www" "example.com" "A") ]).
Proof. vm_compute. reflexivity. Qed.

Lemma Import_writes_only_on_unique_match_witness :
  data (snd (importRecord okAPI (start (mkResourceData "www|example.com|A" ∅))))
  <> mkResourceData "www|example.com|A" ∅
  /\ exists (s d t zoneID : string) (w1 w2 : nat) (r : DNSRecord),
       strings.Split "www|example.com|A" "|" = [s; d; t]
       /\ ZoneIDByName okAPI d 0 = (Done zoneID, w1)
       /\ DNSRecords okAPI zoneID (importFilter s d t) w1 = (Done [r], w2).
Proof.
  assert (H : data (snd (importRecord okAPI
                           (start (mkResourceData "www|example.com|A" ∅))))
              <> mkResourceData "www|example.com|A" ∅).
  { intros E. apply (f_equal id) in E. vm_compute in E. discriminate. }
  split; [exact H|].
  exact (Import_writes_only_on_unique_match okAPI
           (start (mkResourceData "www|example.com|A" ∅)) H).
Defined.

Lemma Import_adopts_unique_match_witness :
  strings.Split "www|example.com|A" "|" = ["www"; "example.com"; "A"]
  /\ DNSRecords okAPI "zone-1" (importFilter "www" "example.com" "A") 1
     = (Done [wwwRecord], 2)
  /\ DNSRecordByID okAPI "zone-1" (ID wwwRecord) 3 = (Done wwwRecord, 4)
  /\ Get resourceCloudFlareRecord_Schema
       (data (snd (importRecord okAPI
                     (start (mkResourceData "www|example.com|A" ∅))))) "subdomain"
     = VString "www".
Proof.
  split; [reflexivity | split; [reflexivity | split; [reflexivity|]]].
  destruct (Import_adopts_unique_match okAPI
              (start (mkResourceData "www|example.com|A" ∅))
              "www" "example.com" "A" "zone-1" "zone-1" 1 2 3 4 wwwRecord wwwRecord
              eq_refl eq_refl eq_refl eq_refl eq_refl)
    as (_ & _ & _ & _ & Hsub & _).
  exact Hsub.
Defined.

(** ** Create's name, read back *)

Section ReadBackFacts.

Context {W : Type}.
Variable client : API W.

Local Arguments Get : simpl never.
Local Arguments subdomainName : simpl never.
Local Arguments recordName : simpl never.

(** X17. A record whose name is the one the forward mapping composes from a
    subdomain and the resource's domain is read back with that subdomain,
    empty or not: Read undoes the composition of Create and Update. *)
Theorem Read_recovers_subdomain (st : State W) (s zoneID : string) (w1 w2 : W)
    (record : DNSRecord)
    (Hzone : ZoneIDByName client
               (asString (Get resourceCloudFlareRecord_Schema (data st) "domain"))
               (world st) = (Done zoneID, w1))
    (Hfetch : DNSRecordByID client zoneID (Id (data st)) w1 = (Done record, w2))
    (Hname : Name record
             = recordName s
                 (asString (Get resourceCloudFlareRecord_Schema (data st) "domain"))) :
  Get resourceCloudFlareRecord_Schema
    (data (snd (resourceCloudFlareRecordRead client st))) "subdomain"
  = VString s.
Proof.
  rewrite (Read_done client st zoneID w1 w2 record Hzone Hfetch). simpl.
  repeat (rewrite Get_insert_ne by discriminate). rewrite Get_insert.
  rewrite Hname. f_equal.
  unfold recordName. destruct (String.eqb_spec s "") as [-> | Hs].
  - unfold subdomainName. now rewrite TrimSuffix_self.
  - apply subdomainName_Sprintf.
Qed.

End ReadBackFacts.

Lemma Read_recovers_subdomain_witness :
  ZoneIDByName okAPI "example.com" 0 = (Done "zone-1", 1)
  /\ DNSRecordByID okAPI "zone-1" "rec-1" 1 = (Done wwwRecord, 2)
  /\ Name wwwRecord = recordName "www" "example.com"
  /\ Get resourceCloudFlareRecord_Schema
       (data (snd (resourceCloudFlareRecordRead okAPI (start wwwState)))) "subdomain"
     = VString "www".
Proof.
  split; [reflexivity | split; [reflexivity | split; [reflexivity|]]].
  exact (Read_recovers_subdomain okAPI (start wwwState) "www" "zone-1" 1 2 wwwRecord
           eq_refl eq_refl eq_refl).
Defined.
